(** * Create-pool page: submission workflow of [frontend/src/app/create-pool/page.tsx]

    A shallow embedding of the page component's logic: the form validator
    [validateForm], the asynchronous submit handler [handleSubmit] with its
    [catch] block (the error classifier), the "Try Again" handler and the
    gating that the rendered markup puts on the submit control.

    JavaScript values are modelled as the engine has them: strings are
    sequences of UTF-16 code units, numbers are IEEE-754 binary64 values
    (the Standard Library's [spec_float] at precision 53). *)

From Stdlib Require Import ZArith NArith List Bool String Ascii Lia.
From Stdlib Require Import Floats.SpecFloat.
Import ListNotations.

Local Open Scope Z_scope.

(** ** JavaScript strings *)

Module JS.

(** A string is its sequence of UTF-16 code units; [length] is the JS
    [.length]. *)
Definition jsstring := list N.

(** A source literal (all literals of the page are ASCII). *)
Definition js (s : string) : jsstring :=
  map N_of_ascii (list_ascii_of_string s).

(** Truthiness of a string: every string but the empty one. *)
Definition truthy (s : jsstring) : bool :=
  match s with [] => false | _ :: _ => true end.

(** [a || b] on strings. *)
Definition or_else (a b : jsstring) : jsstring :=
  if truthy a then a else b.

(** WhiteSpace and LineTerminator code points of ECMA-262, the set that
    [String.prototype.trim], [parseFloat] and [parseInt] strip. *)
Definition is_whitespace (c : N) : bool :=
  ((9 <=? c) && (c <=? 13)         (* TAB, LF, VT, FF, CR *)
   || (c =? 32)                    (* SP *)
   || (c =? 160)                   (* NBSP *)
   || (c =? 5760)                  (* U+1680 *)
   || ((8192 <=? c) && (c <=? 8202)) (* U+2000 .. U+200A *)
   || (c =? 8232) || (c =? 8233)   (* LS, PS *)
   || (c =? 8239)                  (* U+202F *)
   || (c =? 8287)                  (* U+205F *)
   || (c =? 12288)                 (* U+3000 *)
   || (c =? 65279))%N.             (* U+FEFF *)

Fixpoint dropWhile {A} (p : A -> bool) (l : list A) : list A :=
  match l with
  | [] => []
  | x :: t => if p x then dropWhile p t else l
  end.

Fixpoint takeWhile {A} (p : A -> bool) (l : list A) : list A :=
  match l with
  | [] => []
  | x :: t => if p x then x :: takeWhile p t else []
  end.

Definition trimStart (s : jsstring) : jsstring := dropWhile is_whitespace s.
Definition trimEnd (s : jsstring) : jsstring :=
  rev (dropWhile is_whitespace (rev s)).

(** [s.trim()] *)
Definition trim (s : jsstring) : jsstring := trimEnd (trimStart s).

(** [hay.startsWith(needle)] *)
Fixpoint startsWith (hay needle : jsstring) {struct needle} : bool :=
  match needle, hay with
  | [], _ => true
  | _ :: _, [] => false
  | n :: ns, h :: hs => N.eqb n h && startsWith hs ns
  end.

(** [hay.includes(needle)]: case-sensitive search for a contiguous run of
    code units. *)
Fixpoint includes (hay needle : jsstring) : bool :=
  startsWith hay needle
  || match hay with
     | [] => false
     | _ :: t => includes t needle
     end.

(** ** JavaScript numbers: IEEE-754 binary64 *)

Definition number := spec_float.
Definition prec : Z := 53.
Definition emax : Z := 1024.

Definition NaN : number := S754_nan.

(** The Number value of a mathematical integer (round to nearest, ties to
    even). *)
Definition of_Z (z : Z) : number := binary_normalize prec emax z 0 false.

Definition mul : number -> number -> number := SFmul prec emax.
Definition add : number -> number -> number := SFadd prec emax.
Definition div : number -> number -> number := SFdiv prec emax.

(** [a <= b]; false as soon as one side is NaN. *)
Definition le (a b : number) : bool := SFleb a b.

(** [Math.floor] *)
Definition Math_floor (x : number) : number :=
  match x with
  | S754_finite s m e =>
      if 0 <=? e then x
      else binary_normalize prec emax
             (Z.shiftr (cond_Zopp s (Zpos m)) (- e)) 0 s
  | _ => x
  end.

(** The Number value of the decimal [(-1)^neg * m * 10^e], correctly
    rounded; a zero keeps the sign of the literal. *)
Definition of_decimal (neg : bool) (m : N) (e : Z) : number :=
  match m with
  | N0 => S754_zero neg
  | Npos p =>
      match e with
      | Zneg k =>
          let '(q, e', l) :=
            SFdiv_core_binary prec emax (Zpos p) 0 (10 ^ Zpos k) 0 in
          binary_round_aux prec emax neg q e' l
      | _ => binary_normalize prec emax (cond_Zopp neg (Zpos p * 10 ^ e)) 0 neg
      end
  end.

Definition is_digit (c : N) : bool := ((48 <=? c) && (c <=? 57))%N.

(** Value of a digit in radix 16 (also used for radix 10). *)
Definition digit_value (c : N) : option N :=
  (if (48 <=? c) && (c <=? 57) then Some (c - 48)
   else if (97 <=? c) && (c <=? 102) then Some (c - 87)
   else if (65 <=? c) && (c <=? 70) then Some (c - 55)
   else None)%N.

Definition is_radix_digit (radix : N) (c : N) : bool :=
  match digit_value c with
  | Some d => (d <? radix)%N
  | None => false
  end.

Definition radix_value (radix : N) (ds : jsstring) : N :=
  fold_left (fun acc c =>
               (acc * radix + match digit_value c with Some d => d | None => 0 end)%N)
            ds 0%N.

(** Leading [+] or [-]. *)
Definition strip_sign (s : jsstring) : bool * jsstring :=
  match s with
  | 45%N :: r => (true, r)
  | 43%N :: r => (false, r)
  | _ => (false, s)
  end.

(** ExponentPart of a StrDecimalLiteral at the head of [r]; 0 when [r] does
    not start with one (the prefix then ends before it). *)
Definition exponent_part (r : jsstring) : Z :=
  match r with
  | c :: r' =>
      if ((c =? 101) || (c =? 69))%N then
        let '(eneg, r'') := strip_sign r' in
        match takeWhile is_digit r'' with
        | [] => 0
        | ds => cond_Zopp eneg (Z.of_N (radix_value 10 ds))
        end
      else 0
  | [] => 0
  end.

(** [parseFloat(s)]: skip leading white space, take the longest prefix that
    is a StrDecimalLiteral, NaN when there is none. *)
Definition parseFloat (s : jsstring) : number :=
  let '(neg, u) := strip_sign (trimStart s) in
  if startsWith u (js "Infinity") then S754_infinity neg
  else
    let ip := takeWhile is_digit u in
    let r1 := dropWhile is_digit u in
    let '(fp, r2) :=
      match r1 with
      | 46%N :: r => (takeWhile is_digit r, dropWhile is_digit r)
      | _ => ([], r1)
      end in
    match ip ++ fp with
    | [] => NaN
    | ds => of_decimal neg (radix_value 10 ds)
              (exponent_part r2 - Z.of_nat (List.length fp))
    end.

(** [parseInt(s)] with no radix argument: radix 10, or 16 after a [0x] or
    [0X] prefix. *)
Definition parseInt (s : jsstring) : number :=
  let '(neg, u) := strip_sign (trimStart s) in
  let '(radix, v) :=
    match u with
    | 48%N :: x :: r =>
        if ((x =? 120) || (x =? 88))%N then (16%N, r) else (10%N, u)
    | _ => (10%N, u)
    end in
  match takeWhile (is_radix_digit radix) v with
  | [] => NaN
  | ds => of_decimal neg (radix_value radix ds) 0
  end.

End JS.

Import JS.


(** ** The page component *)

(** [interface FormData] *)
Record FormData := mkFormData {
  name : jsstring;
  description : jsstring;
  externalUrl : jsstring;
  imageHash : jsstring;
  targetAmount : jsstring;
  durationDays : jsstring
}.

(** [type SubmissionState = "idle" | "submitting" | "success" | "error"] *)
Inductive SubmissionState := idle | submitting | success | error.

Definition SubmissionState_eqb (a b : SubmissionState) : bool :=
  match a, b with
  | idle, idle | submitting, submitting | success, success | error, error => true
  | _, _ => false
  end.

(** The [useState] cells of [CreatePoolPage]. *)
Record Page := mkPage {
  publicKey : option jsstring;
  isCheckingWallet : bool;
  formData : FormData;
  submissionState : SubmissionState;
  errorMessage : jsstring;
  txHash : jsstring;
  poolId : option Z
}.

(** Initial values passed to [useState]. *)
Definition initialPage : Page :=
  {| publicKey := None;
     isCheckingWallet := true;
     formData := mkFormData [] [] [] [] [] [];
     submissionState := idle;
     errorMessage := [];
     txHash := [];
     poolId := None |}.

(** Handlers are state transformers with a result. *)
Definition M (A : Type) : Type := Page -> A * Page.

Definition ret {A} (a : A) : M A := fun p => (a, p).
Definition bind {A B} (m : M A) (k : A -> M B) : M B :=
  fun p => let '(a, p') := m p in k a p'.

Declare Scope page_scope.
Delimit Scope page_scope with page.
Notation "x <- m ;; k" := (bind m (fun x => k))
  (at level 61, m at next level, right associativity) : page_scope.
Notation "m ;; k" := (bind m (fun _ => k))
  (at level 61, right associativity) : page_scope.
Local Open Scope page_scope.

Definition get {A} (f : Page -> A) : M A := fun p => (f p, p).

Definition setPublicKey (k : option jsstring) : M unit :=
  fun p => (tt, mkPage k (isCheckingWallet p) (formData p) (submissionState p)
                       (errorMessage p) (txHash p) (poolId p)).
Definition setIsCheckingWallet (b : bool) : M unit :=
  fun p => (tt, mkPage (publicKey p) b (formData p) (submissionState p)
                       (errorMessage p) (txHash p) (poolId p)).
Definition setFormData (f : FormData -> FormData) : M unit :=
  fun p => (tt, mkPage (publicKey p) (isCheckingWallet p) (f (formData p))
                       (submissionState p) (errorMessage p) (txHash p) (poolId p)).
Definition setSubmissionState (s : SubmissionState) : M unit :=
  fun p => (tt, mkPage (publicKey p) (isCheckingWallet p) (formData p) s
                       (errorMessage p) (txHash p) (poolId p)).
Definition setErrorMessage (m : jsstring) : M unit :=
  fun p => (tt, mkPage (publicKey p) (isCheckingWallet p) (formData p)
                       (submissionState p) m (txHash p) (poolId p)).
Definition setTxHash (h : jsstring) : M unit :=
  fun p => (tt, mkPage (publicKey p) (isCheckingWallet p) (formData p)
                       (submissionState p) (errorMessage p) h (poolId p)).
Definition setPoolId (i : option Z) : M unit :=
  fun p => (tt, mkPage (publicKey p) (isCheckingWallet p) (formData p)
                       (submissionState p) (errorMessage p) (txHash p) i).

(** [!publicKey]: null or the empty string. *)
Definition connected (k : option jsstring) : bool :=
  match k with
  | Some s => truthy s
  | None => false
  end.

(** *** [validateForm] *)

Definition zero : number := S754_zero false.

Definition validateForm : M bool :=
  formData <- get formData ;;
  if negb (truthy (trim (name formData))) then
    setErrorMessage (js "Pool name is required") ;; ret false
  else if negb (truthy (trim (description formData))) then
    setErrorMessage (js "Description is required") ;; ret false
  else if (500 <? List.length (description formData))%nat then
    setErrorMessage (js "Description must be 500 characters or less") ;; ret false
  else if negb (truthy (trim (externalUrl formData))) then
    setErrorMessage (js "External URL is required") ;; ret false
  else if (200 <? List.length (externalUrl formData))%nat then
    setErrorMessage (js "External URL must be 200 characters or less") ;; ret false
  else if negb (truthy (trim (imageHash formData))) then
    setErrorMessage (js "Image hash is required") ;; ret false
  else if (100 <? List.length (imageHash formData))%nat then
    setErrorMessage (js "Image hash must be 100 characters or less") ;; ret false
  else if negb (truthy (targetAmount formData))
          || le (parseFloat (targetAmount formData)) zero then
    setErrorMessage (js "Target amount must be greater than 0") ;; ret false
  else if negb (truthy (durationDays formData))
          || le (parseInt (durationDays formData)) zero then
    setErrorMessage (js "Duration must be greater than 0 days") ;; ret false
  else ret true.

(** *** [handleSubmit] *)

(** Argument of [createPool]. *)
Record CreatePoolRequest := mkRequest {
  req_name : jsstring;
  req_description : jsstring;
  req_externalUrl : jsstring;
  req_imageHash : jsstring;
  req_targetAmount : jsstring;
  req_deadline : number
}.

(** What [createPool] resolves with. *)
Record CreatePoolResult := mkResult {
  res_txHash : jsstring;
  res_poolId : option Z
}.

(** A caught value of the shape the cast [{ message?: string }] assumes:
    its [message] is a string, or reads as [undefined] or [null] ([None];
    the two behave alike in the [catch] block).  A thrown primitive such as
    a string or a number has no [message] and is [mkRawError None]. *)
Record RawError := mkRawError { message : option jsstring }.

(** What [catch (error: unknown)] can receive.  The cast on the next line is
    not checked at run time, so the value need not have the assumed shape:
    - [CaughtNullish]: [null] or [undefined]; reading [errorObj.message]
      throws a [TypeError];
    - [CaughtError errorObj]: the assumed shape;
    - [CaughtOddMessage]: a [message] that is neither nullish nor a string
      and has no [includes] method (a number, a boolean, a plain object);
      [?.] does not short-circuit and calling [includes] throws a
      [TypeError].
    A [message] that brings an [includes] method of its own (an array, a
    hand-made object) is not represented. *)
Inductive Caught :=
| CaughtNullish
| CaughtError (errorObj : RawError)
| CaughtOddMessage.

(** [errorObj.message?.includes(needle)] used as a condition. *)
Definition message_includes (errorObj : RawError) (needle : jsstring) : bool :=
  match message errorObj with
  | Some m => includes m needle
  | None => false
  end.

(** The four branches of the [catch] block, named as the spec names the
    error kinds, with the message each branch hands to [setErrorMessage]. *)
Inductive ErrorKind := UserRejected | SimulationFailure | TransactionFailure | Unknown.

Record SubmissionError := mkSubmissionError {
  kind : ErrorKind;
  err_message : jsstring
}.

(** The [if] chain of the [catch] block on a caught value of the assumed
    shape, where no condition throws. *)
Definition classify (errorObj : RawError) : SubmissionError :=
  if message_includes errorObj (js "User rejected") then
    mkSubmissionError UserRejected (js "Transaction was rejected. Please try again.")
  else if message_includes errorObj (js "Simulation failed") then
    mkSubmissionError SimulationFailure
      (js "Transaction simulation failed. Please check your inputs.")
  else if message_includes errorObj (js "Transaction failed") then
    mkSubmissionError TransactionFailure
      (js "Transaction failed: "
         ++ match message errorObj with Some m => m | None => js "undefined" end)
  else
    mkSubmissionError Unknown
      (or_else match message errorObj with Some m => m | None => [] end
               (js "Failed to create pool. Please try again.")).

(** The [if] chain applied to whatever was caught: [None] when its first
    condition throws, which is before any [setErrorMessage]. *)
Definition classify_caught (caught : Caught) : option SubmissionError :=
  match caught with
  | CaughtNullish => None
  | CaughtError errorObj => Some (classify errorObj)
  | CaughtOddMessage => None
  end.

(** [Math.floor(Date.now() / 1000)], from the clock reading in
    milliseconds. *)
Definition now_seconds (dateNow : Z) : number :=
  Math_floor (div (of_Z dateNow) (of_Z 1000)).

(** [now + parseInt(formData.durationDays) * 24 * 60 * 60] *)
Definition deadline_of (now : number) (days : jsstring) : number :=
  let durationSeconds := mul (mul (mul (parseInt days) (of_Z 24)) (of_Z 60)) (of_Z 60) in
  add now durationSeconds.

(** An [async] handler runs until it returns or reaches its [await]. *)
Inductive Suspension :=
| Returned
| AwaitCreatePool (request : CreatePoolRequest).

(** [handleSubmit] up to [await createPool(...)]. *)
Definition handleSubmit (dateNow : Z) : M Suspension :=
  publicKey <- get publicKey ;;
  if negb (connected publicKey) then
    setErrorMessage (js "Please connect your wallet first") ;; ret Returned
  else
    ok <- validateForm ;;
    if negb ok then ret Returned
    else
      setSubmissionState submitting ;;
      setErrorMessage [] ;;
      formData <- get formData ;;
      let now := now_seconds dateNow in
      let deadline := deadline_of now (durationDays formData) in
      ret (AwaitCreatePool
             (mkRequest (name formData) (description formData)
                        (externalUrl formData) (imageHash formData)
                        (targetAmount formData) deadline)).

(** How the awaited promise settles. *)
Inductive Settlement :=
| Fulfilled (result : CreatePoolResult)
| Rejected (caught : Caught).

(** [handleSubmit] after the [await]: the rest of the [try] block, or the
    [catch] block.  When the [if] chain throws, [handleSubmit] ends there:
    the state is already [error] and the message is left as it was. *)
Definition handleSubmit_resume (s : Settlement) : M unit :=
  match s with
  | Fulfilled result =>
      setTxHash (res_txHash result) ;;
      setPoolId (res_poolId result) ;;
      setSubmissionState success
  | Rejected caught =>
      setSubmissionState error ;;
      match classify_caught caught with
      | Some classified => setErrorMessage (err_message classified)
      | None => ret tt
      end
  end.

(** [onClick] of the "Try Again" button. *)
Definition handleTryAgain : M unit :=
  setSubmissionState idle ;;
  setErrorMessage [].

(** [handleInputChange]: [{ ...prev, [name]: value }] for the six inputs. *)
Inductive Field :=
  f_name | f_description | f_externalUrl | f_imageHash | f_targetAmount | f_durationDays.

Definition update_field (fld : Field) (value : jsstring) (prev : FormData) : FormData :=
  match fld with
  | f_name => mkFormData value (description prev) (externalUrl prev)
                (imageHash prev) (targetAmount prev) (durationDays prev)
  | f_description => mkFormData (name prev) value (externalUrl prev)
                (imageHash prev) (targetAmount prev) (durationDays prev)
  | f_externalUrl => mkFormData (name prev) (description prev) value
                (imageHash prev) (targetAmount prev) (durationDays prev)
  | f_imageHash => mkFormData (name prev) (description prev) (externalUrl prev)
                value (targetAmount prev) (durationDays prev)
  | f_targetAmount => mkFormData (name prev) (description prev) (externalUrl prev)
                (imageHash prev) value (durationDays prev)
  | f_durationDays => mkFormData (name prev) (description prev) (externalUrl prev)
                (imageHash prev) (targetAmount prev) value
  end.

Definition handleInputChange (fld : Field) (value : jsstring) : M unit :=
  setFormData (update_field fld value).

(** The mount effect [checkWallet], once [getPublicKey] has resolved. *)
Definition checkWallet (key : option jsstring) : M unit :=
  setPublicKey key ;;
  setIsCheckingWallet false.

(** The callback [handleConnectWallet] passes to [connect]. *)
Definition onConnected (key : option jsstring) : M unit :=
  setPublicKey key.

(** *** The page and its gateway *)

(** The page together with what the contract gateway has seen: every
    request passed to [createPool], oldest first, and how many of them have
    not settled yet. *)
Record World := mkWorld {
  page : Page;
  calls : list CreatePoolRequest;
  inFlight : nat
}.

Definition initialWorld : World := mkWorld initialPage [] 0.

(** One invocation of [handleSubmit], up to its return or its [await]. *)
Definition submit (dateNow : Z) (w : World) : World :=
  match handleSubmit dateNow (page w) with
  | (Returned, p) => mkWorld p (calls w) (inFlight w)
  | (AwaitCreatePool request, p) =>
      mkWorld p (calls w ++ [request]) (S (inFlight w))
  end.

(** A pending [createPool] settles and the handler resumes. *)
Definition settle (s : Settlement) (w : World) : World :=
  mkWorld (snd (handleSubmit_resume s (page w))) (calls w) (pred (inFlight w)).

(** *** What the rendered markup offers *)

(** [if (isCheckingWallet) return <loader/>]; then
    [{submissionState !== "success" && publicKey && (<form ...>)}]. *)
Definition formRendered (p : Page) : bool :=
  negb (isCheckingWallet p)
  && negb (SubmissionState_eqb (submissionState p) success)
  && connected (publicKey p).

(** [disabled={submissionState === "submitting"}] on the six inputs. *)
Definition inputsDisabled (p : Page) : bool :=
  SubmissionState_eqb (submissionState p) submitting.

(** [disabled={submissionState === "submitting" || !publicKey}] on the
    submit button. *)
Definition submitDisabled (p : Page) : bool :=
  SubmissionState_eqb (submissionState p) submitting
  || negb (connected (publicKey p)).

(** [{submissionState === "error" && (... <button>Try Again</button>)}] *)
Definition tryAgainRendered (p : Page) : bool :=
  negb (isCheckingWallet p) && SubmissionState_eqb (submissionState p) error.

(** [{errorMessage && submissionState === "idle" && (<p>{errorMessage}</p>)}],
    inside the form. *)
Definition inlineError (p : Page) : option jsstring :=
  if formRendered p && truthy (errorMessage p)
     && SubmissionState_eqb (submissionState p) idle
  then Some (errorMessage p) else None.

(** What can happen to a mounted page. A form is submitted through its
    submit button, so a submit event reaches [handleSubmit] only while the
    form is rendered and that button is enabled; likewise for the other
    controls. The browser's own checks of the inputs ([required],
    [maxLength], [min]) can only withhold more submit events; they are not
    modelled. Promise resolutions come from outside. *)
Inductive Event :=
| WalletChecked (key : option jsstring)
| WalletConnected (key : option jsstring)
| InputChanged (fld : Field) (value : jsstring)
| FormSubmitted (dateNow : Z)
| TryAgainClicked
| CreatePoolSettled (s : Settlement).

Definition on_page (m : M unit) (w : World) : World :=
  mkWorld (snd (m (page w))) (calls w) (inFlight w).

Definition dispatch (e : Event) (w : World) : World :=
  match e with
  | WalletChecked key =>
      if isCheckingWallet (page w) then on_page (checkWallet key) w else w
  | WalletConnected key => on_page (onConnected key) w
  | InputChanged fld value =>
      if formRendered (page w) && negb (inputsDisabled (page w))
      then on_page (handleInputChange fld value) w else w
  | FormSubmitted dateNow =>
      if formRendered (page w) && negb (submitDisabled (page w))
      then submit dateNow w else w
  | TryAgainClicked =>
      if tryAgainRendered (page w) then on_page handleTryAgain w else w
  | CreatePoolSettled s =>
      match inFlight w with
      | O => w
      | S _ => settle s w
      end
  end.

Definition run (es : list Event) (w : World) : World :=
  fold_left (fun w e => dispatch e w) es w.

Definition reachable (w : World) : Prop :=
  exists es, run es initialWorld = w.

(** ** The validation rules as the spec lists them *)

Inductive Rule :=
| NameRequired
| DescriptionRequired
| DescriptionTooLong
| ExternalUrlRequired
| ExternalUrlTooLong
| ImageHashRequired
| ImageHashTooLong
| TargetAmountNotPositive
| DurationNotPositive.

(** Position in the priority order, 1 to 9. *)
Definition rank (r : Rule) : nat :=
  match r with
  | NameRequired => 1
  | DescriptionRequired => 2
  | DescriptionTooLong => 3
  | ExternalUrlRequired => 4
  | ExternalUrlTooLong => 5
  | ImageHashRequired => 6
  | ImageHashTooLong => 7
  | TargetAmountNotPositive => 8
  | DurationNotPositive => 9
  end.

Definition priority : list Rule :=
  [NameRequired; DescriptionRequired; DescriptionTooLong; ExternalUrlRequired;
   ExternalUrlTooLong; ImageHashRequired; ImageHashTooLong;
   TargetAmountNotPositive; DurationNotPositive].

Definition rule_message (r : Rule) : jsstring :=
  match r with
  | NameRequired => js "Pool name is required"
  | DescriptionRequired => js "Description is required"
  | DescriptionTooLong => js "Description must be 500 characters or less"
  | ExternalUrlRequired => js "External URL is required"
  | ExternalUrlTooLong => js "External URL must be 200 characters or less"
  | ImageHashRequired => js "Image hash is required"
  | ImageHashTooLong => js "Image hash must be 100 characters or less"
  | TargetAmountNotPositive => js "Target amount must be greater than 0"
  | DurationNotPositive => js "Duration must be greater than 0 days"
  end.

(** A required text field counts as empty when nothing is left of it once
    trimmed. *)
Definition blank (s : jsstring) : bool := negb (truthy (trim s)).

(** Absent, or parsing to a number that is [<= 0]. *)
Definition not_positive (parse : jsstring -> number) (s : jsstring) : bool :=
  negb (truthy s) || le (parse s) zero.

Definition violates (r : Rule) (f : FormData) : bool :=
  match r with
  | NameRequired => blank (name f)
  | DescriptionRequired => blank (description f)
  | DescriptionTooLong => (500 <? List.length (description f))%nat
  | ExternalUrlRequired => blank (externalUrl f)
  | ExternalUrlTooLong => (200 <? List.length (externalUrl f))%nat
  | ImageHashRequired => blank (imageHash f)
  | ImageHashTooLong => (100 <? List.length (imageHash f))%nat
  | TargetAmountNotPositive => not_positive parseFloat (targetAmount f)
  | DurationNotPositive => not_positive parseInt (durationDays f)
  end.

(** The violated rule that comes first in the priority order. *)
Definition first_violation (f : FormData) : option Rule :=
  find (fun r => violates r f) priority.

(** The page after [setErrorMessage m]. *)
Definition with_error (m : jsstring) (p : Page) : Page :=
  snd (setErrorMessage m p).

(** [validate(form)] of the spec, read off [validateForm]: the attached
    message on failure. *)
Inductive Validation := Ok | Fail (reason : jsstring).

Definition validate (p : Page) : Validation :=
  match validateForm p with
  | (true, _) => Ok
  | (false, p') => Fail (errorMessage p')
  end.

(** ** Derived notions used in the statements *)

(** The page after the user has typed [value] into the input [fld]. *)
Definition set_field (fld : Field) (value : jsstring) (p : Page) : Page :=
  snd (handleInputChange fld value p).

(** The request [handleSubmit] builds from the form at clock reading
    [dateNow]. *)
Definition request_of (dateNow : Z) (f : FormData) : CreatePoolRequest :=
  mkRequest (name f) (description f) (externalUrl f) (imageHash f)
            (targetAmount f)
            (deadline_of (now_seconds dateNow) (durationDays f)).

(** The page once [handleSubmit] has passed both gates: Submitting, with
    the message reset. *)
Definition submitting_page (p : Page) : Page :=
  mkPage (publicKey p) (isCheckingWallet p) (formData p) submitting []
         (txHash p) (poolId p).

(** What every page reached through [dispatch] satisfies: a request is in
    flight exactly while Submitting, a result is stored only in Success,
    and no message is stored while Submitting or in Success. *)
Definition consistent (w : World) : Prop :=
  inFlight w = (if SubmissionState_eqb (submissionState (page w)) submitting
                then 1 else 0)%nat
  /\ (submissionState (page w) <> success ->
      txHash (page w) = [] /\ poolId (page w) = None)
  /\ (submissionState (page w) = submitting
      \/ submissionState (page w) = success ->
      errorMessage (page w) = []).

(** *** Integers held exactly

    Auxiliary notions for the arithmetic on integer-valued Numbers. *)

(** [m * 2^k] on positives. *)
Definition shl (m : positive) (k : nat) : positive := Nat.iter k xO m.

(** Number of binary digits. *)
Definition bits (n : positive) : nat := Pos.to_nat (digits2_pos n).

(** The binary64 representation of a positive integer below 2^53, with
    sign [s]: the mantissa normalised to 53 bits. *)
Definition canon (s : bool) (n : positive) : number :=
  S754_finite s (shl n (53 - bits n)) (Z.of_nat (bits n) - 53).

(** ** Running examples *)

(** A filled-in form and a page showing it with a wallet connected. *)
Definition sampleForm : FormData :=
  mkFormData (js "Clean Water Initiative") (js "Wells for two villages")
             (js "https://example.com/your-cause") (js "QmImageHash")
             (js "1000") (js "30").

Definition samplePage : Page :=
  {| publicKey := Some (js "GABC");
     isCheckingWallet := false;
     formData := sampleForm;
     submissionState := idle;
     errorMessage := [];
     txHash := [];
     poolId := None |}.

(** One letter followed by 500 spaces: 501 code units, one once trimmed. *)
Definition paddedDescription : jsstring := js "a" ++ repeat 32%N 500.

(** The sample form with a duration of 10^15 + 1 days. *)
Definition longForm : FormData :=
  update_field f_durationDays (js "1000000000000001") sampleForm.

(** A session: the wallet check finds a key, the user fills the form in
    and submits it. *)
Definition fillAndSubmit : list Event :=
  [WalletChecked (Some (js "GABC"));
   InputChanged f_name (name sampleForm);
   InputChanged f_description (description sampleForm);
   InputChanged f_externalUrl (externalUrl sampleForm);
   InputChanged f_imageHash (imageHash sampleForm);
   InputChanged f_targetAmount (targetAmount sampleForm);
   InputChanged f_durationDays (durationDays sampleForm);
   FormSubmitted 1700000000123].

(** The page while that submission is in flight. *)
Definition busyWorld : World := run fillAndSubmit initialWorld.

(** The page after the gateway has answered with a transaction hash and a
    pool id. *)
Definition doneWorld : World :=
  run (fillAndSubmit
         ++ [CreatePoolSettled (Fulfilled (mkResult (js "tx1") (Some 5)))])
      initialWorld.

(** ** Further notions: form access, the other panels, the requests made *)

(** [formData[name]] for the six inputs. *)
Definition get_field (fld : Field) (f : FormData) : jsstring :=
  match fld with
  | f_name => name f
  | f_description => description f
  | f_externalUrl => externalUrl f
  | f_imageHash => imageHash f
  | f_targetAmount => targetAmount f
  | f_durationDays => durationDays f
  end.

(** [{!publicKey && (... <button>Connect Wallet</button>)}] *)
Definition connectPromptRendered (p : Page) : bool :=
  negb (isCheckingWallet p) && negb (connected (publicKey p)).

(** [{submissionState === "success" && (...)}] *)
Definition successPanelRendered (p : Page) : bool :=
  negb (isCheckingWallet p) && SubmissionState_eqb (submissionState p) success.

(** [<p>{errorMessage}</p>] of the error panel. *)
Definition errorPanel (p : Page) : option jsstring :=
  if tryAgainRendered p then Some (errorMessage p) else None.

(** What [{poolId && (<span>Pool ID: {poolId}</span>)}] puts in the success
    panel: nothing for [null], the labelled id for a non-zero id, and for
    the falsy id 0 the bare value that [&&] evaluates to. *)
Inductive PoolIdView :=
| PoolIdAbsent
| PoolIdBare (n : Z)
| PoolIdLabelled (n : Z).

Definition poolIdView (p : Page) : PoolIdView :=
  match poolId p with
  | None => PoolIdAbsent
  | Some 0 => PoolIdBare 0
  | Some n => PoolIdLabelled n
  end.

(** [{txHash && (<a ...>View on Stellar Expert</a>)}] *)
Definition explorerLinkRendered (p : Page) : bool :=
  successPanelRendered p && truthy (txHash p).

(** A request whose text fields pass the rules of [validateForm]. *)
Definition request_passes (r : CreatePoolRequest) : Prop :=
  blank (req_name r) = false
  /\ blank (req_description r) = false
  /\ (List.length (req_description r) <= 500)%nat
  /\ blank (req_externalUrl r) = false
  /\ (List.length (req_externalUrl r) <= 200)%nat
  /\ blank (req_imageHash r) = false
  /\ (List.length (req_imageHash r) <= 100)%nat
  /\ not_positive parseFloat (req_targetAmount r) = false.

(** Number of submit events in a run. *)
Definition submits (es : list Event) : nat :=
  List.length (filter (fun e => match e with FormSubmitted _ => true | _ => false end) es).

(** What every page reached through [dispatch] also satisfies: the loader
    is gone once the page has left Idle, every request made passed
    validation, and while Submitting the last request is the one built
    from the form on the page. *)
Definition tracked (w : World) : Prop :=
  (submissionState (page w) <> idle -> isCheckingWallet (page w) = false)
  /\ Forall request_passes (calls w)
  /\ (submissionState (page w) = submitting ->
      exists dateNow earlier,
        calls w = earlier ++ [request_of dateNow (formData (page w))]).

(** A page in the Error state whose name field has been emptied. *)
Definition errorPage : Page :=
  {| publicKey := Some (js "GABC");
     isCheckingWallet := false;
     formData := update_field f_name [] sampleForm;
     submissionState := error;
     errorMessage := js "Transaction simulation failed. Please check your inputs.";
     txHash := [];
     poolId := None |}.

(** A positive mantissa that is not below the subnormal range. *)
Definition above_underflow (m e : Z) : Prop :=
  0 < m /\ -1021 <= Zdigits2 m + e.

(** ** Facts about strings *)

Section ListScan.
Context {A : Type} (p : A -> bool).

Lemma dropWhile_all (l : list A) :
  forallb p l = true -> dropWhile p l = [].
Proof.
  induction l as [|x t IH]; simpl; [reflexivity|].
  intros H. apply andb_prop in H as [Hx Ht]. rewrite Hx. auto.
Qed.

Lemma dropWhile_head (l : list A) x t :
  dropWhile p l = x :: t -> p x = false.
Proof.
  induction l as [|y l IH]; simpl; [discriminate|].
  destruct (p y) eqn:Hy; [exact IH|].
  intros E. injection E as -> _. exact Hy.
Qed.

Lemma dropWhile_nil (l : list A) :
  dropWhile p l = [] -> forallb p l = true.
Proof.
  induction l as [|x t IH]; simpl; [reflexivity|].
  destruct (p x); [exact IH | discriminate].
Qed.

Lemma forallb_rev (l : list A) :
  forallb p (rev l) = forallb p l.
Proof.
  induction l as [|x t IH]; simpl; [reflexivity|].
  rewrite forallb_app, IH. simpl. rewrite andb_true_r. apply andb_comm.
Qed.
End ListScan.

Lemma trim_whitespace_only (s : jsstring) :
  forallb is_whitespace s = true -> trim s = [].
Proof.
  intros H. unfold trim, trimEnd, trimStart.
  rewrite (dropWhile_all _ _ H). reflexivity.
Qed.

Lemma trim_nil_whitespace_only (s : jsstring) :
  trim s = [] -> forallb is_whitespace s = true.
Proof.
  unfold trim, trimEnd, trimStart. intros H.
  apply (f_equal (@rev N)) in H. rewrite rev_involutive in H. simpl in H.
  apply dropWhile_nil in H. rewrite forallb_rev in H.
  destruct (dropWhile is_whitespace s) as [|x t] eqn:E.
  - apply dropWhile_nil. exact E.
  - apply dropWhile_head in E. simpl in H. rewrite E in H. discriminate.
Qed.

(** Blank means: made of white space only (the empty string included). *)
Lemma blank_iff_whitespace (s : jsstring) :
  blank s = true <-> forallb is_whitespace s = true.
Proof.
  unfold blank. split.
  - intros H. apply trim_nil_whitespace_only.
    destruct (trim s); [reflexivity | discriminate].
  - intros H. rewrite (trim_whitespace_only _ H). reflexivity.
Qed.

Lemma startsWith_app (n post : jsstring) : startsWith (n ++ post) n = true.
Proof.
  induction n as [|c n IH]; simpl; [reflexivity|].
  rewrite N.eqb_refl. exact IH.
Qed.

Lemma startsWith_inv (h n : jsstring) :
  startsWith h n = true -> exists post, h = n ++ post.
Proof.
  revert h. induction n as [|c n IH]; intros h; simpl.
  - exists h. reflexivity.
  - destruct h as [|d h]; [discriminate|].
    intros H. apply andb_prop in H as [Hc Hn].
    apply N.eqb_eq in Hc. subst d.
    destruct (IH _ Hn) as [post ->]. exists post. reflexivity.
Qed.

Lemma includes_startsWith (h n : jsstring) :
  startsWith h n = true -> includes h n = true.
Proof.
  intros H. destruct h; simpl; rewrite H; reflexivity.
Qed.

(** [includes] finds the needle wherever it sits. *)
Lemma includes_app (pre n post : jsstring) :
  includes (pre ++ n ++ post) n = true.
Proof.
  induction pre as [|c pre IH]; simpl.
  - apply includes_startsWith, startsWith_app.
  - rewrite IH. apply orb_true_r.
Qed.

Lemma includes_inv (h n : jsstring) :
  includes h n = true -> exists pre post, h = pre ++ n ++ post.
Proof.
  induction h as [|c h IH]; simpl; intros H.
  - rewrite orb_false_r in H. apply startsWith_inv in H as [post E].
    exists [], post. exact E.
  - apply orb_prop in H as [H|H].
    + apply startsWith_inv in H as [post E]. exists [], post. exact E.
    + destruct (IH H) as (pre & post & ->). exists (c :: pre), post. reflexivity.
Qed.

(** ** Facts about [validateForm] *)

(** [validateForm] fails with the message of the first violated rule and
    succeeds, leaving the page alone, when there is none. *)
Lemma validateForm_first_violation (p : Page) :
  validateForm p =
  match first_violation (formData p) with
  | Some r => (false, with_error (rule_message r) p)
  | None => (true, p)
  end.
Proof.
  unfold validateForm, first_violation, priority, find, violates, blank,
    not_positive, bind, get, ret, with_error.
  repeat match goal with
         | |- context [if ?c then _ else _] => destruct c
         end; reflexivity.
Qed.

Lemma validate_first_violation (p : Page) :
  validate p =
  match first_violation (formData p) with
  | Some r => Fail (rule_message r)
  | None => Ok
  end.
Proof.
  unfold validate. rewrite validateForm_first_violation.
  destruct (first_violation (formData p)); reflexivity.
Qed.

(** No two rules share a message. *)
Lemma rule_message_inj (r r' : Rule) :
  rule_message r = rule_message r' -> r = r'.
Proof.
  destruct r, r'; intros H; try reflexivity; vm_compute in H; discriminate H.
Qed.

Lemma first_violation_least (f : FormData) (r : Rule) :
  first_violation f = Some r ->
  violates r f = true
  /\ forall r', violates r' f = true -> (rank r <= rank r')%nat.
Proof.
  unfold first_violation, priority. cbn [find].
  destruct (violates NameRequired f) eqn:H1;
    [|destruct (violates DescriptionRequired f) eqn:H2;
    [|destruct (violates DescriptionTooLong f) eqn:H3;
    [|destruct (violates ExternalUrlRequired f) eqn:H4;
    [|destruct (violates ExternalUrlTooLong f) eqn:H5;
    [|destruct (violates ImageHashRequired f) eqn:H6;
    [|destruct (violates ImageHashTooLong f) eqn:H7;
    [|destruct (violates TargetAmountNotPositive f) eqn:H8;
    [|destruct (violates DurationNotPositive f) eqn:H9;
    [|discriminate]]]]]]]]];
    intros E; injection E as <-; (split; [assumption|]);
    intros r' Hr'; destruct r'; cbn [rank]; try lia; congruence.
Qed.

Lemma first_violation_none (f : FormData) :
  first_violation f = None -> forall r, violates r f = false.
Proof.
  unfold first_violation. intros H r.
  destruct (violates r f) eqn:E; [|reflexivity].
  exfalso. eapply find_none in H.
  - cbv beta in H. rewrite E in H. discriminate H.
  - unfold priority. destruct r; simpl; tauto.
Qed.

(** C3. Whatever rules a form violates, [validateForm] attaches exactly the
    message of the violated rule that comes first in the priority order
    (name required, description required, description over 500, external
    URL required, external URL over 200, image hash required, image hash
    over 100, target amount absent or not above 0, duration absent or not
    above 0): every other violated rule ranks later, and no other rule has
    that message. A form that violates no rule validates, and the page is
    left as it was. *)
Theorem validate_reports_first_violated_rule (p : Page) :
  match first_violation (formData p) with
  | Some r =>
      validateForm p = (false, with_error (rule_message r) p)
      /\ validate p = Fail (rule_message r)
      /\ violates r (formData p) = true
      /\ (forall r', violates r' (formData p) = true -> (rank r <= rank r')%nat)
      /\ (forall r', r' <> r -> rule_message r' <> rule_message r)
  | None =>
      validateForm p = (true, p)
      /\ validate p = Ok
      /\ (forall r, violates r (formData p) = false)
  end.
Proof.
  pose proof (validateForm_first_violation p) as HV.
  pose proof (validate_first_violation p) as HV'.
  destruct (first_violation (formData p)) as [r|] eqn:E.
  - destruct (first_violation_least _ _ E) as [Hr Hleast].
    repeat split; try assumption.
    intros r' Hne Hm. apply Hne. apply rule_message_inj. exact Hm.
  - repeat split; try assumption. apply first_violation_none. exact E.
Qed.

Ltac first_violation_by_cases :=
  unfold first_violation, priority; cbn [find violates set_field
    handleInputChange setFormData update_field snd formData name description
    externalUrl imageHash targetAmount durationDays].

(** C7. On a form whose other fields pass their rules, a target amount of
    "0" fails validation with "Target amount must be greater than 0", and a
    target amount of "0.0000001" passes the target-amount rule, so the form
    validates. *)
Theorem target_amount_zero_rejected_smallest_step_accepted (p : Page) :
  (forall r, r <> TargetAmountNotPositive -> violates r (formData p) = false) ->
  validateForm (set_field f_targetAmount (js "0") p)
  = (false, with_error (js "Target amount must be greater than 0")
              (set_field f_targetAmount (js "0") p))
  /\ validate (set_field f_targetAmount (js "0") p)
     = Fail (js "Target amount must be greater than 0")
  /\ violates TargetAmountNotPositive
       (formData (set_field f_targetAmount (js "0.0000001") p)) = false
  /\ validateForm (set_field f_targetAmount (js "0.0000001") p)
     = (true, set_field f_targetAmount (js "0.0000001") p).
Proof.
  intros H.
  pose proof (H NameRequired ltac:(discriminate)) as H1.
  pose proof (H DescriptionRequired ltac:(discriminate)) as H2.
  pose proof (H DescriptionTooLong ltac:(discriminate)) as H3.
  pose proof (H ExternalUrlRequired ltac:(discriminate)) as H4.
  pose proof (H ExternalUrlTooLong ltac:(discriminate)) as H5.
  pose proof (H ImageHashRequired ltac:(discriminate)) as H6.
  pose proof (H ImageHashTooLong ltac:(discriminate)) as H7.
  pose proof (H DurationNotPositive ltac:(discriminate)) as H9.
  cbn [violates] in *.
  assert (E0 : first_violation (formData (set_field f_targetAmount (js "0") p))
               = Some TargetAmountNotPositive).
  { first_violation_by_cases. rewrite H1, H2, H3, H4, H5, H6, H7. reflexivity. }
  assert (E1 : first_violation
                 (formData (set_field f_targetAmount (js "0.0000001") p)) = None).
  { first_violation_by_cases. rewrite H1, H2, H3, H4, H5, H6, H7, H9.
    reflexivity. }
  rewrite validate_first_violation, !validateForm_first_violation, E0, E1.
  repeat split; reflexivity.
Qed.

Lemma target_amount_zero_rejected_witness :
  (forall r, r <> TargetAmountNotPositive ->
             violates r (formData samplePage) = false)
  /\ validate (set_field f_targetAmount (js "0") samplePage)
     = Fail (js "Target amount must be greater than 0")
  /\ validateForm (set_field f_targetAmount (js "0.0000001") samplePage)
     = (true, set_field f_targetAmount (js "0.0000001") samplePage).
Proof.
  assert (H : forall r, r <> TargetAmountNotPositive ->
                        violates r (formData samplePage) = false).
  { intros r _. destruct r; reflexivity. }
  split; [exact H|].
  destruct (target_amount_zero_rejected_smallest_step_accepted samplePage H)
    as (_ & H0 & _ & H1).
  split; assumption.
Defined.

(** ** Exact integer arithmetic in binary64 *)

Lemma digits2_pos_size (p : positive) : digits2_pos p = Pos.size p.
Proof. induction p; simpl; congruence. Qed.

Lemma bits_log2 (p : positive) : Z.of_nat (bits p) = Z.log2 (Zpos p) + 1.
Proof.
  unfold bits. rewrite positive_nat_Z, digits2_pos_size.
  destruct p; simpl; lia.
Qed.

Lemma bits_bounds (p : positive) :
  2 ^ (Z.of_nat (bits p) - 1) <= Zpos p < 2 ^ Z.of_nat (bits p).
Proof.
  rewrite bits_log2. replace (Z.log2 (Z.pos p) + 1 - 1) with (Z.log2 (Zpos p)) by lia.
  apply Z.log2_spec. lia.
Qed.

Lemma bits_le (p : positive) (k : nat) :
  Zpos p < 2 ^ Z.of_nat k -> (bits p <= k)%nat.
Proof.
  intros H. pose proof (bits_bounds p) as [Hl _].
  destruct (Nat.le_gt_cases (bits p) k) as [|Hgt]; [assumption|exfalso].
  assert (2 ^ Z.of_nat k <= 2 ^ (Z.of_nat (bits p) - 1))
    by (apply Z.pow_le_mono_r; lia).
  lia.
Qed.

Lemma shl_S (m : positive) (k : nat) : shl m (S k) = xO (shl m k).
Proof. reflexivity. Qed.

Lemma shl_Z (m : positive) (k : nat) : Zpos (shl m k) = Zpos m * 2 ^ Z.of_nat k.
Proof.
  induction k as [|k IH].
  - simpl. lia.
  - rewrite shl_S, Pos2Z.inj_xO, IH, Nat2Z.inj_succ, Z.pow_succ_r by lia. lia.
Qed.

Lemma shl_shl (m : positive) (j k : nat) : shl (shl m j) k = shl m (k + j).
Proof. unfold shl. symmetry. apply Nat.iter_add. Qed.

Lemma bits_shl (m : positive) (k : nat) : bits (shl m k) = (bits m + k)%nat.
Proof.
  induction k as [|k IH]; [simpl; lia|].
  rewrite shl_S. unfold bits in *. cbn [digits2_pos].
  rewrite Pos2Nat.inj_succ, IH. lia.
Qed.

Lemma iter_pos_nat {A} (f : A -> A) (p : positive) (x : A) :
  iter_pos f p x = Nat.iter (Pos.to_nat p) f x.
Proof.
  revert x. induction p as [p IH|p IH|]; intros x; cbn [iter_pos].
  - rewrite !IH, Pos2Nat.inj_xI, <- Nat.iter_add, <- Nat.iter_succ_r.
    f_equal. lia.
  - rewrite !IH, Pos2Nat.inj_xO, <- Nat.iter_add. f_equal. lia.
  - reflexivity.
Qed.

Lemma shr_1_shl (m : positive) (k : nat) :
  Nat.iter k shr_1 (Build_shr_record (Zpos (shl m k)) false false)
  = Build_shr_record (Zpos m) false false.
Proof.
  induction k as [|k IH]; [reflexivity|].
  rewrite Nat.iter_succ_r, shl_S. cbn [shr_1 orb]. exact IH.
Qed.

(** Rounding a 53-bit mantissa followed by [k] zero bits is exact. *)
Lemma binary_round_aux_exact (s : bool) (m : positive) (e : Z) (k : nat) :
  bits m = 53%nat -> -1074 <= e <= 971 ->
  binary_round_aux prec emax s (Zpos (shl m k)) (e - Z.of_nat k) loc_Exact
  = S754_finite s m e.
Proof.
  intros Hm He.
  assert (Hd : forall j, Zdigits2 (Zpos (shl m j)) = 53 + Z.of_nat j).
  { intros j. cbn [Zdigits2]. rewrite <- positive_nat_Z.
    fold (bits (shl m j)). rewrite bits_shl, Hm. lia. }
  assert (Hf : forall x, -1074 <= x -> fexp prec emax (53 + x) = x).
  { intros x Hx. unfold fexp, emin, prec, emax. lia. }
  unfold binary_round_aux, shr_fexp.
  rewrite Hd.
  replace (53 + Z.of_nat k + (e - Z.of_nat k)) with (53 + e) by lia.
  rewrite Hf by lia.
  replace (e - (e - Z.of_nat k)) with (Z.of_nat k) by lia.
  assert (Hshr : shr (shr_record_of_loc (Zpos (shl m k)) loc_Exact)
                     (e - Z.of_nat k) (Z.of_nat k)
                 = (Build_shr_record (Zpos m) false false, e)).
  { destruct k as [|k].
    - cbn. f_equal. lia.
    - cbn [Z.of_nat]. unfold shr.
      rewrite iter_pos_nat, SuccNat2Pos.id_succ. cbn [shr_record_of_loc].
      rewrite shr_1_shl. f_equal. lia. }
  rewrite Hshr. cbn [shr_m loc_of_shr_record round_nearest_even].
  specialize (Hd 0%nat). change (shl m 0) with m in Hd. rewrite Hd.
  cbn [Z.of_nat]. rewrite Z.add_0_r, Hf by lia. rewrite Z.sub_diag. cbn [shr shr_record_of_loc shr_m].
  destruct (Z.leb_spec e (emax - prec)) as [_|H]; [reflexivity|].
  unfold emax, prec in H. lia.
Qed.

Lemma bits_canon (n : positive) :
  (bits n <= 53)%nat -> bits (shl n (53 - bits n)) = 53%nat.
Proof. intros H. rewrite bits_shl. lia. Qed.

(** A positive integer below 2^53 is a Number, exactly. *)
Lemma of_Z_pos (n : positive) :
  Zpos n < 2 ^ 53 -> of_Z (Zpos n) = canon false n.
Proof.
  intros H. apply (bits_le n 53) in H.
  unfold of_Z, canon. cbn [binary_normalize]. unfold binary_round.
  assert (Hf : fexp prec emax (Zpos (digits2_pos n) + 0)
               = Z.of_nat (bits n) - 53).
  { unfold bits. rewrite positive_nat_Z.
    unfold fexp, emin, prec, emax. lia. }
  rewrite Hf. unfold shl_align.
  destruct (Z.of_nat (bits n) - 53 - 0) as [|q|q] eqn:E; try lia.
  - replace (53 - bits n)%nat with 0%nat by lia.
    replace (Z.of_nat (bits n) - 53) with 0 by lia.
    apply (binary_round_aux_exact false n 0 0); lia.
  - rewrite Pos2Nat.inj_iter.
    replace (Pos.to_nat q) with (53 - bits n)%nat by lia.
    fold (shl n (53 - bits n)).
    pose proof (binary_round_aux_exact false (shl n (53 - bits n))
                  (Z.of_nat (bits n) - 53) 0) as R.
    cbn [shl Nat.iter Z.of_nat] in R. rewrite Z.sub_0_r in R.
    apply R; [apply bits_canon|]; lia.
Qed.

Lemma bits_mul_lower (a b : positive) :
  (bits a + bits b <= bits (a * b) + 1)%nat.
Proof.
  pose proof (bits_bounds a) as [Ha _].
  pose proof (bits_bounds b) as [Hb _].
  pose proof (bits_bounds (a * b)) as [_ Hn].
  assert (Ha1 : (1 <= bits a)%nat) by (unfold bits; lia).
  assert (Hb1 : (1 <= bits b)%nat) by (unfold bits; lia).
  assert (H : 2 ^ (Z.of_nat (bits a) - 1 + (Z.of_nat (bits b) - 1))
              < 2 ^ Z.of_nat (bits (a * b))).
  { rewrite Z.pow_add_r by lia. rewrite Pos2Z.inj_mul in Hn.
    eapply Z.le_lt_trans; [|exact Hn].
    apply Z.mul_le_mono_nonneg; try assumption; apply Z.pow_nonneg; lia. }
  apply Z.pow_lt_mono_r_iff in H; lia.
Qed.

Lemma shl_regroup (n : positive) (j k : nat) :
  (j <= k)%nat -> shl n k = shl (shl n j) (k - j).
Proof.
  intros H. rewrite shl_shl. f_equal. lia.
Qed.

(** The product of two integers is exact when it stays below 2^53. *)
Lemma mul_canon (a b : positive) :
  Zpos a * Zpos b < 2 ^ 53 ->
  mul (canon false a) (canon false b) = canon false (a * b).
Proof.
  intros H.
  assert (Hn : (bits (a * b) <= 53)%nat)
    by (apply bits_le; rewrite Pos2Z.inj_mul; exact H).
  pose proof (bits_mul_lower a b) as Hlow.
  assert (Ha1 : (1 <= bits a)%nat) by (unfold bits; lia).
  assert (Hb1 : (1 <= bits b)%nat) by (unfold bits; lia).
  unfold mul, canon. cbn [SFmul xorb].
  assert (Hm : (shl a (53 - bits a) * shl b (53 - bits b))%positive
               = shl (shl (a * b) (53 - bits (a * b)))
                     (53 + bits (a * b) - bits a - bits b)).
  { rewrite shl_shl. apply Pos2Z.inj.
    rewrite Pos2Z.inj_mul, !shl_Z, Pos2Z.inj_mul.
    replace (Z.of_nat (53 + bits (a * b) - bits a - bits b + (53 - bits (a * b))))
      with (Z.of_nat (53 - bits a) + Z.of_nat (53 - bits b)) by lia.
    rewrite Z.pow_add_r by lia. ring. }
  rewrite Hm.
  replace (Z.of_nat (bits a) - 53 + (Z.of_nat (bits b) - 53))
    with (Z.of_nat (bits (a * b)) - 53
          - Z.of_nat (53 + bits (a * b) - bits a - bits b)) by lia.
  apply binary_round_aux_exact; [apply bits_canon; exact Hn | lia].
Qed.

Lemma shl_add (a b : positive) (k : nat) :
  (shl a k + shl b k)%positive = shl (a + b) k.
Proof.
  apply Pos2Z.inj. rewrite Pos2Z.inj_add, !shl_Z, Pos2Z.inj_add. ring.
Qed.

Lemma shl_align_canon (n : positive) (k : nat) (ez : Z) :
  (bits n <= 53)%nat ->
  ez = Z.of_nat (bits n) - 53 - Z.of_nat k ->
  fst (shl_align (shl n (53 - bits n)) (Z.of_nat (bits n) - 53) ez)
  = shl n (53 - bits n + k).
Proof.
  intros Hn ->. unfold shl_align.
  destruct (Z.of_nat (bits n) - 53 - Z.of_nat k - (Z.of_nat (bits n) - 53))
    as [|q|q] eqn:E; try lia; cbn [fst].
  - replace k with 0%nat by lia. f_equal. lia.
  - rewrite Pos2Nat.inj_iter.
    change (shl (shl n (53 - bits n)) (Pos.to_nat q) = shl n (53 - bits n + k)).
    rewrite shl_shl. f_equal. lia.
Qed.

(** The sum of two positive integers is exact when it stays below 2^53. *)
Lemma add_canon (a b : positive) :
  Zpos a + Zpos b < 2 ^ 53 ->
  add (canon false a) (canon false b) = canon false (a + b).
Proof.
  intros H.
  assert (Hn : (bits (a + b) <= 53)%nat)
    by (apply bits_le; rewrite Pos2Z.inj_add; exact H).
  assert (Ha : (bits a <= bits (a + b))%nat).
  { pose proof (bits_bounds (a + b)) as [_ Hu].
    apply bits_le. rewrite Pos2Z.inj_add in Hu. lia. }
  assert (Hb : (bits b <= bits (a + b))%nat).
  { pose proof (bits_bounds (a + b)) as [_ Hu].
    apply bits_le. rewrite Pos2Z.inj_add in Hu. lia. }
  assert (Ha1 : (1 <= bits a)%nat) by (unfold bits; lia).
  assert (Hb1 : (1 <= bits b)%nat) by (unfold bits; lia).
  unfold add, canon. cbn [SFadd cond_Zopp].
  set (ez := Z.min (Z.of_nat (bits a) - 53) (Z.of_nat (bits b) - 53)).
  set (N := (53 - Nat.min (bits a) (bits b))%nat).
  assert (Hez : ez = - Z.of_nat N) by (unfold ez, N; lia).
  rewrite (shl_align_canon a (bits a - Nat.min (bits a) (bits b))) by lia.
  rewrite (shl_align_canon b (bits b - Nat.min (bits a) (bits b))) by lia.
  replace (53 - bits a + (bits a - Nat.min (bits a) (bits b)))%nat with N
    by (unfold N; lia).
  replace (53 - bits b + (bits b - Nat.min (bits a) (bits b)))%nat with N
    by (unfold N; lia).
  rewrite <- Pos2Z.inj_add, shl_add.
  cbn [binary_normalize]. unfold binary_round.
  assert (Hf : fexp prec emax (Zpos (digits2_pos (shl (a + b) N)) + ez)
               = Z.of_nat (bits (a + b)) - 53).
  { rewrite <- positive_nat_Z. fold (bits (shl (a + b) N)).
    rewrite bits_shl. unfold fexp, emin, prec, emax. lia. }
  rewrite Hf. unfold shl_align.
  destruct (Z.of_nat (bits (a + b)) - 53 - ez) as [|q|q] eqn:E; try lia.
  - rewrite (shl_regroup (a + b) (53 - bits (a + b)) N) by lia.
    replace ez with (Z.of_nat (bits (a + b)) - 53
                     - Z.of_nat (N - (53 - bits (a + b)))) by lia.
    apply binary_round_aux_exact; [apply bits_canon; exact Hn | lia].
  - rewrite (shl_regroup (a + b) (53 - bits (a + b)) N) by lia.
    replace ez with (Z.of_nat (bits (a + b)) - 53
                     - Z.of_nat (N - (53 - bits (a + b)))) by lia.
    apply binary_round_aux_exact; [apply bits_canon; exact Hn | lia].
Qed.

(** ** Facts about [handleSubmit] *)

Lemma handleSubmit_disconnected (dateNow : Z) (p : Page) :
  connected (publicKey p) = false ->
  handleSubmit dateNow p
  = (Returned, with_error (js "Please connect your wallet first") p).
Proof.
  intros H. unfold handleSubmit, bind, get. rewrite H. reflexivity.
Qed.

Lemma handleSubmit_invalid (dateNow : Z) (p : Page) (r : Rule) :
  connected (publicKey p) = true ->
  first_violation (formData p) = Some r ->
  handleSubmit dateNow p = (Returned, with_error (rule_message r) p).
Proof.
  intros H E. unfold handleSubmit, bind, get. rewrite H. cbn [negb].
  rewrite validateForm_first_violation, E. reflexivity.
Qed.

Lemma handleSubmit_valid (dateNow : Z) (p : Page) :
  connected (publicKey p) = true ->
  first_violation (formData p) = None ->
  handleSubmit dateNow p
  = (AwaitCreatePool (request_of dateNow (formData p)), submitting_page p).
Proof.
  intros H E. unfold handleSubmit, bind, get. rewrite H. cbn [negb].
  rewrite validateForm_first_violation, E. reflexivity.
Qed.

Lemma mul_NaN_l (y : number) : mul NaN y = NaN.
Proof. reflexivity. Qed.

Lemma add_NaN_r (x : number) : add x NaN = NaN.
Proof. destruct x; reflexivity. Qed.

Lemma deadline_of_NaN (now : number) (days : jsstring) :
  parseInt days = NaN -> deadline_of now days = NaN.
Proof.
  intros H. unfold deadline_of. rewrite H, !mul_NaN_l. apply add_NaN_r.
Qed.

Lemma not_positive_NaN (parse : jsstring -> number) (s : jsstring) :
  truthy s = true -> parse s = NaN -> not_positive parse s = false.
Proof.
  intros Ht Hn. unfold not_positive. rewrite Ht, Hn. reflexivity.
Qed.

(** C8. A form whose target amount or duration is a non-empty string that
    parses to NaN, and whose other fields satisfy their rules, validates:
    NaN is not [<= 0]. With a wallet connected [handleSubmit] then goes on
    to call [createPool] with that target amount, and with a NaN deadline
    when it is the duration that does not parse. *)
Theorem non_numeric_amount_or_duration_passes (dateNow : Z) (w : World) :
  (forall r, (rank r <= 7)%nat -> violates r (formData (page w)) = false) ->
  (truthy (targetAmount (formData (page w))) = true
   /\ parseFloat (targetAmount (formData (page w))) = NaN)
  \/ (truthy (durationDays (formData (page w))) = true
      /\ parseInt (durationDays (formData (page w))) = NaN) ->
  (truthy (targetAmount (formData (page w))) = true
   /\ parseFloat (targetAmount (formData (page w))) = NaN)
  \/ violates TargetAmountNotPositive (formData (page w)) = false ->
  (truthy (durationDays (formData (page w))) = true
   /\ parseInt (durationDays (formData (page w))) = NaN)
  \/ violates DurationNotPositive (formData (page w)) = false ->
  validateForm (page w) = (true, page w)
  /\ validate (page w) = Ok
  /\ (connected (publicKey (page w)) = true ->
      submit dateNow w
      = mkWorld (submitting_page (page w))
                (calls w ++ [request_of dateNow (formData (page w))])
                (S (inFlight w))
      /\ req_targetAmount (request_of dateNow (formData (page w)))
         = targetAmount (formData (page w))
      /\ (parseInt (durationDays (formData (page w))) = NaN ->
          req_deadline (request_of dateNow (formData (page w))) = NaN)).
Proof.
  intros H _ Ht Hd.
  assert (Ht' : violates TargetAmountNotPositive (formData (page w)) = false).
  { destruct Ht as [[Hs Hn]|Ht]; [|exact Ht].
    cbn [violates]. apply not_positive_NaN; assumption. }
  assert (Hd' : violates DurationNotPositive (formData (page w)) = false).
  { destruct Hd as [[Hs Hn]|Hd]; [|exact Hd].
    cbn [violates]. apply not_positive_NaN; assumption. }
  assert (E : first_violation (formData (page w)) = None).
  { destruct (first_violation (formData (page w))) as [r|] eqn:E; [|reflexivity].
    apply first_violation_least in E as [Hr _].
    destruct r; try (rewrite H in Hr; [discriminate Hr | cbn [rank]; lia]);
      congruence. }
  rewrite validate_first_violation, validateForm_first_violation, E.
  repeat split.
  - unfold submit. rewrite (handleSubmit_valid _ _ H0 E). reflexivity.
  - intros Hn. cbn [request_of req_deadline]. apply deadline_of_NaN. exact Hn.
Qed.

Lemma non_numeric_amount_or_duration_passes_witness :
  validate (set_field f_durationDays (js "abc")
              (set_field f_targetAmount (js "abc") samplePage)) = Ok
  /\ req_targetAmount
       (request_of 1700000000123
          (formData (set_field f_durationDays (js "abc")
                       (set_field f_targetAmount (js "abc") samplePage))))
     = js "abc"
  /\ req_deadline
       (request_of 1700000000123
          (formData (set_field f_durationDays (js "abc")
                       (set_field f_targetAmount (js "abc") samplePage))))
     = NaN.
Proof.
  destruct (non_numeric_amount_or_duration_passes 1700000000123
              (mkWorld (set_field f_durationDays (js "abc")
                          (set_field f_targetAmount (js "abc") samplePage))
                       [] 0))
    as (_ & Hv & Hs).
  - intros r _. destruct r; reflexivity.
  - left. split; reflexivity.
  - left. split; reflexivity.
  - left. split; reflexivity.
  - destruct (Hs eq_refl) as (_ & Ha & Hd).
    split; [exact Hv|]. split; [exact Ha|]. apply Hd. reflexivity.
Defined.

Ltac validate_by_cases :=
  rewrite validate_first_violation; first_violation_by_cases.

(** C10. A name, description, external URL or image hash made of white
    space only is rejected with that field's "required" message once the
    rules before it pass: the emptiness test is on the trimmed string. The
    limits of 500, 200 and 100 are tested on the length of the string as
    typed; a description of one letter and 500 spaces is too long although
    one code unit is left of it once trimmed. *)
Theorem whitespace_only_is_required_and_limits_are_untrimmed (p : Page) :
  (forallb is_whitespace (name (formData p)) = true ->
   validate p = Fail (js "Pool name is required"))
  /\ (forallb is_whitespace (description (formData p)) = true ->
      (forall r, (rank r < 2)%nat -> violates r (formData p) = false) ->
      validate p = Fail (js "Description is required"))
  /\ (forallb is_whitespace (externalUrl (formData p)) = true ->
      (forall r, (rank r < 4)%nat -> violates r (formData p) = false) ->
      validate p = Fail (js "External URL is required"))
  /\ (forallb is_whitespace (imageHash (formData p)) = true ->
      (forall r, (rank r < 6)%nat -> violates r (formData p) = false) ->
      validate p = Fail (js "Image hash is required"))
  /\ ((500 < List.length (description (formData p)))%nat ->
      (forall r, (rank r < 3)%nat -> violates r (formData p) = false) ->
      validate p = Fail (js "Description must be 500 characters or less"))
  /\ ((200 < List.length (externalUrl (formData p)))%nat ->
      (forall r, (rank r < 5)%nat -> violates r (formData p) = false) ->
      validate p = Fail (js "External URL must be 200 characters or less"))
  /\ ((100 < List.length (imageHash (formData p)))%nat ->
      (forall r, (rank r < 7)%nat -> violates r (formData p) = false) ->
      validate p = Fail (js "Image hash must be 100 characters or less"))
  /\ List.length (trim paddedDescription) = 1%nat
  /\ validate (set_field f_description paddedDescription samplePage)
     = Fail (js "Description must be 500 characters or less").
Proof.
  assert (P : forall n r, (forall r', (rank r' < n)%nat ->
                violates r' (formData p) = false) ->
              (rank r < n)%nat -> violates r (formData p) = false)
    by (intros n r H Hr; apply H; exact Hr).
  repeat match goal with |- _ /\ _ => split end.
  - intros H. apply blank_iff_whitespace in H.
    validate_by_cases. rewrite H. reflexivity.
  - intros H Hb. apply blank_iff_whitespace in H.
    pose proof (P _ NameRequired Hb ltac:(cbn; lia)) as H1.
    cbn [violates] in H1. validate_by_cases. rewrite H1, H. reflexivity.
  - intros H Hb. apply blank_iff_whitespace in H.
    pose proof (P _ NameRequired Hb ltac:(cbn; lia)) as H1.
    pose proof (P _ DescriptionRequired Hb ltac:(cbn; lia)) as H2.
    pose proof (P _ DescriptionTooLong Hb ltac:(cbn; lia)) as H3.
    cbn [violates] in H1, H2, H3. validate_by_cases.
    rewrite H1, H2, H3, H. reflexivity.
  - intros H Hb. apply blank_iff_whitespace in H.
    pose proof (P _ NameRequired Hb ltac:(cbn; lia)) as H1.
    pose proof (P _ DescriptionRequired Hb ltac:(cbn; lia)) as H2.
    pose proof (P _ DescriptionTooLong Hb ltac:(cbn; lia)) as H3.
    pose proof (P _ ExternalUrlRequired Hb ltac:(cbn; lia)) as H4.
    pose proof (P _ ExternalUrlTooLong Hb ltac:(cbn; lia)) as H5.
    cbn [violates] in H1, H2, H3, H4, H5. validate_by_cases.
    rewrite H1, H2, H3, H4, H5, H. reflexivity.
  - intros H Hb. apply Nat.ltb_lt in H.
    pose proof (P _ NameRequired Hb ltac:(cbn; lia)) as H1.
    pose proof (P _ DescriptionRequired Hb ltac:(cbn; lia)) as H2.
    cbn [violates] in H1, H2. validate_by_cases.
    rewrite H1, H2, H. reflexivity.
  - intros H Hb. apply Nat.ltb_lt in H.
    pose proof (P _ NameRequired Hb ltac:(cbn; lia)) as H1.
    pose proof (P _ DescriptionRequired Hb ltac:(cbn; lia)) as H2.
    pose proof (P _ DescriptionTooLong Hb ltac:(cbn; lia)) as H3.
    pose proof (P _ ExternalUrlRequired Hb ltac:(cbn; lia)) as H4.
    cbn [violates] in H1, H2, H3, H4. validate_by_cases.
    rewrite H1, H2, H3, H4, H. reflexivity.
  - intros H Hb. apply Nat.ltb_lt in H.
    pose proof (P _ NameRequired Hb ltac:(cbn; lia)) as H1.
    pose proof (P _ DescriptionRequired Hb ltac:(cbn; lia)) as H2.
    pose proof (P _ DescriptionTooLong Hb ltac:(cbn; lia)) as H3.
    pose proof (P _ ExternalUrlRequired Hb ltac:(cbn; lia)) as H4.
    pose proof (P _ ExternalUrlTooLong Hb ltac:(cbn; lia)) as H5.
    pose proof (P _ ImageHashRequired Hb ltac:(cbn; lia)) as H6.
    cbn [violates] in H1, H2, H3, H4, H5, H6. validate_by_cases.
    rewrite H1, H2, H3, H4, H5, H6, H. reflexivity.
  - vm_compute. reflexivity.
  - vm_compute. reflexivity.
Qed.

(** ** The error classifier *)

Lemma reachable_run (es : list Event) : reachable (run es initialWorld).
Proof. exists es. reflexivity. Qed.

Lemma or_else_nonempty (a b : jsstring) : b <> [] -> or_else a b <> [].
Proof.
  intros Hb. unfold or_else. destruct a; simpl; [exact Hb | discriminate].
Qed.

(** C4, as stated, fails on the [catch] block: it receives
    [error: unknown] and casts it without a check, so its [if] chain is not
    total.  On a caught [null] or [undefined], and on a [message] that is
    neither nullish nor a string and cannot be asked [includes], the first
    condition throws: nothing is classified.  When the request in flight on
    the filled-in page is rejected with [undefined], the page ends in the
    Error state with an empty message. *)
Lemma caught_undefined_is_not_classified :
  classify_caught CaughtNullish = None
  /\ classify_caught CaughtOddMessage = None
  /\ ~ (forall caught, exists classified,
          classify_caught caught = Some classified
          /\ err_message classified <> [])
  /\ reachable busyWorld
  /\ submissionState (page busyWorld) = submitting
  /\ submissionState
       (page (dispatch (CreatePoolSettled (Rejected CaughtNullish)) busyWorld))
     = error
  /\ errorMessage
       (page (dispatch (CreatePoolSettled (Rejected CaughtNullish)) busyWorld))
     = [].
Proof.
  split; [reflexivity|]. split; [reflexivity|]. split.
  - intros H. destruct (H CaughtNullish) as (classified & Hc & _).
    discriminate Hc.
  - split; [exact (reachable_run _)|].
    repeat match goal with |- _ /\ _ => split end; vm_compute; reflexivity.
Qed.

(** C4, amended. On the caught values that have the shape the cast
    assumes (a [message] that is absent, [null] or a string) the [if] chain
    is total: [classify] assigns each of them one kind and a non-empty
    message, by the first of these that applies to the raw message, read
    case-sensitively: it contains "User rejected" (whatever surrounds it),
    it contains "Simulation failed", it contains "Transaction failed" (the
    raw message is then appended to "Transaction failed: "), none of them
    (the raw message itself, or the fallback text when it is missing or
    empty).  The other caught values are exactly those on which nothing is
    classified. *)
Theorem classify_total_by_substring_priority (errorObj : RawError) :
  classify_caught (CaughtError errorObj) = Some (classify errorObj)
  /\ (forall caught,
        classify_caught caught = None
        <-> caught = CaughtNullish \/ caught = CaughtOddMessage)
  /\ err_message (classify errorObj) <> []
  /\ (message_includes errorObj (js "User rejected") = true ->
      classify errorObj
      = mkSubmissionError UserRejected
          (js "Transaction was rejected. Please try again."))
  /\ (message_includes errorObj (js "User rejected") = false ->
      message_includes errorObj (js "Simulation failed") = true ->
      classify errorObj
      = mkSubmissionError SimulationFailure
          (js "Transaction simulation failed. Please check your inputs."))
  /\ (message_includes errorObj (js "User rejected") = false ->
      message_includes errorObj (js "Simulation failed") = false ->
      message_includes errorObj (js "Transaction failed") = true ->
      exists raw, message errorObj = Some raw
        /\ classify errorObj
           = mkSubmissionError TransactionFailure
               (js "Transaction failed: " ++ raw))
  /\ (message_includes errorObj (js "User rejected") = false ->
      message_includes errorObj (js "Simulation failed") = false ->
      message_includes errorObj (js "Transaction failed") = false ->
      kind (classify errorObj) = Unknown
      /\ match message errorObj with
         | Some (c :: raw) => err_message (classify errorObj) = c :: raw
         | _ => err_message (classify errorObj)
                = js "Failed to create pool. Please try again."
         end)
  /\ (forall before after,
        classify (mkRawError (Some (before ++ js "User rejected" ++ after)))
        = mkSubmissionError UserRejected
            (js "Transaction was rejected. Please try again."))
  /\ classify (mkRawError (Some (js "user rejected the request")))
     = mkSubmissionError Unknown (js "user rejected the request")
  /\ classify (mkRawError (Some []))
     = mkSubmissionError Unknown (js "Failed to create pool. Please try again.").
Proof.
  split; [reflexivity|]. split.
  { intros caught. split.
    - destruct caught as [|e|]; cbn; intros H;
        [left; reflexivity|discriminate H|right; reflexivity].
    - intros [->| ->]; reflexivity. }
  unfold classify.
  repeat match goal with |- _ /\ _ => split end.
  - destruct (message_includes errorObj (js "User rejected"));
      [vm_compute; discriminate|].
    destruct (message_includes errorObj (js "Simulation failed"));
      [vm_compute; discriminate|].
    destruct (message_includes errorObj (js "Transaction failed"));
      [cbn; discriminate|].
    cbn [err_message]. apply or_else_nonempty. vm_compute. discriminate.
  - intros ->. reflexivity.
  - intros -> ->. reflexivity.
  - intros -> -> H. rewrite H. unfold message_includes in H.
    destruct (message errorObj) as [raw|]; [|discriminate H].
    exists raw. split; reflexivity.
  - intros -> -> ->. split; [reflexivity|].
    destruct (message errorObj) as [[|c raw]|]; reflexivity.
  - intros before after. unfold message_includes. cbn [message].
    rewrite includes_app. reflexivity.
  - reflexivity.
  - reflexivity.
Qed.

(** ** Rejected attempts *)

(** C5. A [handleSubmit] call on an Idle page with no wallet connected, or
    with a wallet connected and a form that fails validation, makes no call
    to [createPool], leaves the page Idle and sets the message: "Please
    connect your wallet first" without a wallet, the message of the first
    violated rule otherwise. *)
Theorem rejected_submit_stays_idle_without_gateway_call (dateNow : Z) (w : World) :
  submissionState (page w) = idle ->
  (connected (publicKey (page w)) = false ->
   calls (submit dateNow w) = calls w
   /\ inFlight (submit dateNow w) = inFlight w
   /\ submissionState (page (submit dateNow w)) = idle
   /\ errorMessage (page (submit dateNow w))
      = js "Please connect your wallet first")
  /\ (connected (publicKey (page w)) = true ->
      forall reason, validate (page w) = Fail reason ->
      calls (submit dateNow w) = calls w
      /\ inFlight (submit dateNow w) = inFlight w
      /\ submissionState (page (submit dateNow w)) = idle
      /\ errorMessage (page (submit dateNow w)) = reason
      /\ exists r, first_violation (formData (page w)) = Some r
                   /\ reason = rule_message r).
Proof.
  intros Hidle. split.
  - intros Hc. unfold submit.
    rewrite (handleSubmit_disconnected _ _ Hc). cbn.
    repeat split; [exact Hidle].
  - intros Hc reason Hv. rewrite validate_first_violation in Hv.
    destruct (first_violation (formData (page w))) as [r|] eqn:E;
      [|discriminate Hv].
    injection Hv as <-. unfold submit.
    rewrite (handleSubmit_invalid _ _ _ Hc E). cbn.
    repeat split; [exact Hidle|]. exists r. split; reflexivity.
Qed.

Lemma rejected_submit_witness :
  (errorMessage
     (page (submit 1700000000123
              (mkWorld (snd (setPublicKey None samplePage)) [] 0)))
   = js "Please connect your wallet first"
   /\ calls (submit 1700000000123
               (mkWorld (snd (setPublicKey None samplePage)) [] 0)) = [])
  /\ (errorMessage
        (page (submit 1700000000123
                 (mkWorld (set_field f_targetAmount (js "-5") samplePage) [] 0)))
      = js "Target amount must be greater than 0"
      /\ calls (submit 1700000000123
                  (mkWorld (set_field f_targetAmount (js "-5") samplePage) [] 0))
         = []).
Proof.
  split.
  - destruct (rejected_submit_stays_idle_without_gateway_call 1700000000123
                (mkWorld (snd (setPublicKey None samplePage)) [] 0) eq_refl)
      as [H _].
    destruct (H eq_refl) as (Hc & _ & _ & Hm). split; assumption.
  - destruct (rejected_submit_stays_idle_without_gateway_call 1700000000123
                (mkWorld (set_field f_targetAmount (js "-5") samplePage) [] 0)
                eq_refl) as [_ H].
    destruct (H eq_refl (js "Target amount must be greater than 0") eq_refl)
      as (Hc & _ & _ & Hm & _). split; assumption.
Defined.

(** ** Try Again *)

(** C9. The "Try Again" handler, which the page offers in the Error state,
    puts the page in Idle and empties the error message, so that no inline
    message is shown; the six form fields, the wallet key and the gateway's
    record are left as they were. *)
Theorem try_again_returns_to_idle_and_keeps_the_form (w : World) :
  submissionState (page (on_page handleTryAgain w)) = idle
  /\ errorMessage (page (on_page handleTryAgain w)) = []
  /\ inlineError (page (on_page handleTryAgain w)) = None
  /\ formData (page (on_page handleTryAgain w)) = formData (page w)
  /\ publicKey (page (on_page handleTryAgain w)) = publicKey (page w)
  /\ calls (on_page handleTryAgain w) = calls w
  /\ inFlight (on_page handleTryAgain w) = inFlight w
  /\ (submissionState (page w) = error ->
      isCheckingWallet (page w) = false ->
      dispatch TryAgainClicked w = on_page handleTryAgain w).
Proof.
  repeat match goal with |- _ /\ _ => split end; try reflexivity.
  - unfold inlineError. cbn.
    rewrite andb_false_r. reflexivity.
  - intros Hs Hc. unfold dispatch, tryAgainRendered. rewrite Hs, Hc. reflexivity.
Qed.

(** ** Pages reached through the rendered controls *)

Lemma submit_cases (dateNow : Z) (w : World) :
  (exists m, submit dateNow w = mkWorld (with_error m (page w)) (calls w) (inFlight w))
  \/ submit dateNow w
     = mkWorld (submitting_page (page w))
               (calls w ++ [request_of dateNow (formData (page w))])
               (S (inFlight w)).
Proof.
  unfold submit.
  destruct (connected (publicKey (page w))) eqn:Hc.
  - destruct (first_violation (formData (page w))) as [r|] eqn:E.
    + left. exists (rule_message r).
      rewrite (handleSubmit_invalid _ _ _ Hc E). reflexivity.
    + right. rewrite (handleSubmit_valid _ _ Hc E). reflexivity.
  - left. exists (js "Please connect your wallet first").
    rewrite (handleSubmit_disconnected _ _ Hc). reflexivity.
Qed.

Lemma consistent_initial : consistent initialWorld.
Proof.
  unfold consistent. cbn. repeat split; intros [H|H]; discriminate H.
Qed.

Lemma consistent_frame (w w' : World) :
  inFlight w' = inFlight w ->
  submissionState (page w') = submissionState (page w) ->
  errorMessage (page w') = errorMessage (page w) ->
  txHash (page w') = txHash (page w) ->
  poolId (page w') = poolId (page w) ->
  consistent w -> consistent w'.
Proof.
  unfold consistent. intros -> -> -> -> ->. exact (fun H => H).
Qed.

Lemma consistent_dispatch (e : Event) (w : World) :
  consistent w -> consistent (dispatch e w).
Proof.
  intros HC.
  destruct e as [key|key|fld value|dateNow| |s]; unfold dispatch.
  - destruct (isCheckingWallet (page w)); [|exact HC].
    apply (consistent_frame w); try reflexivity; exact HC.
  - apply (consistent_frame w); try reflexivity; exact HC.
  - destruct (formRendered (page w) && negb (inputsDisabled (page w)));
      [|exact HC].
    apply (consistent_frame w); try reflexivity; exact HC.
  - destruct (formRendered (page w) && negb (submitDisabled (page w))) eqn:G;
      [|exact HC].
    assert (Hs : submissionState (page w) = idle
                 \/ submissionState (page w) = error).
    { unfold formRendered, submitDisabled in G.
      destruct (submissionState (page w)); cbn in G;
        rewrite ?andb_false_r in G; try discriminate G; auto. }
    destruct HC as (Hfl & Hres & Hmsg).
    assert (Hne : submissionState (page w) <> success)
      by (destruct Hs as [-> | ->]; discriminate).
    destruct (Hres Hne) as [Htx Hid].
    destruct (submit_cases dateNow w) as [[m ->]| ->]; unfold consistent; cbn.
    + split; [exact Hfl|]. split; [auto|].
      intros [H|H]; rewrite H in Hs; destruct Hs; discriminate.
    + split; [|auto].
      destruct Hs as [H|H]; rewrite H in Hfl; cbn in Hfl; rewrite Hfl;
        reflexivity.
  - destruct (tryAgainRendered (page w)) eqn:G; [|exact HC].
    unfold tryAgainRendered in G. apply andb_prop in G as [_ G].
    destruct HC as (Hfl & Hres & Hmsg).
    destruct (submissionState (page w)) eqn:Hs; try discriminate G.
    unfold consistent. cbn. split; [exact Hfl|].
    split; [|reflexivity]. intros _. apply Hres. discriminate.
  - destruct (inFlight w) as [|n] eqn:Hn; [exact HC|].
    destruct HC as (Hfl & Hres & Hmsg). rewrite Hn in Hfl.
    destruct (submissionState (page w)) eqn:Hs; cbn in Hfl;
      try discriminate Hfl.
    injection Hfl as ->.
    destruct s as [result|caught]; unfold consistent, settle;
      [|destruct caught as [|errorObj|]]; cbn; rewrite Hn; cbn.
    + split; [reflexivity|]. split; [congruence|].
      intros _. apply Hmsg. left. reflexivity.
    + split; [reflexivity|]. split; [intros _; apply Hres; discriminate|].
      intros [H|H]; discriminate H.
    + split; [reflexivity|]. split; [intros _; apply Hres; discriminate|].
      intros [H|H]; discriminate H.
    + split; [reflexivity|]. split; [intros _; apply Hres; discriminate|].
      intros [H|H]; discriminate H.
Qed.

Lemma run_snoc (es : list Event) (e : Event) (w : World) :
  run (es ++ [e]) w = dispatch e (run es w).
Proof. unfold run. rewrite fold_left_app. reflexivity. Qed.

Lemma reachable_consistent (w : World) : reachable w -> consistent w.
Proof.
  intros [es <-]. induction es as [|e es IH] using rev_ind.
  - exact consistent_initial.
  - rewrite run_snoc. apply consistent_dispatch. exact IH.
Qed.

(** ** Submitting twice *)


(** C1, as stated, fails on [handleSubmit]: the handler does not look at
    [submissionState]. On the page reached by filling the form in and
    submitting it, which is Submitting with one request in flight, a second
    invocation passes both gates and calls [createPool] again. *)
Lemma handleSubmit_while_submitting_calls_createPool_again :
  reachable busyWorld
  /\ submissionState (page busyWorld) = submitting
  /\ calls busyWorld = [request_of 1700000000123 sampleForm]
  /\ inFlight busyWorld = 1%nat
  /\ calls (submit 1700000001456 busyWorld)
     = [request_of 1700000000123 sampleForm;
        request_of 1700000001456 sampleForm]
  /\ inFlight (submit 1700000001456 busyWorld) = 2%nat.
Proof.
  split; [exact (reachable_run fillAndSubmit)|].
  repeat match goal with |- _ /\ _ => split end; vm_compute; reflexivity.
Qed.

(** C1, amended. On every run made of what the rendered page delivers at
    most one [createPool] request is in flight. While the page is
    Submitting the submit button and the six inputs are disabled, so the
    page delivers no submit and no edit: a submit event dispatched then
    leaves the page, the stored result and message, the requests made and
    the number in flight as they were. *)
Theorem no_submit_is_delivered_while_submitting (w : World) :
  reachable w ->
  (inFlight w <= 1)%nat
  /\ (submissionState (page w) = submitting ->
      submitDisabled (page w) = true
      /\ inputsDisabled (page w) = true
      /\ (forall dateNow, dispatch (FormSubmitted dateNow) w = w)
      /\ (forall fld value, dispatch (InputChanged fld value) w = w)).
Proof.
  intros Hr. split.
  - destruct (reachable_consistent _ Hr) as (Hfl & _).
    rewrite Hfl.
    destruct (SubmissionState_eqb (submissionState (page w)) submitting); lia.
  - intros H. unfold submitDisabled, inputsDisabled, dispatch.
    unfold submitDisabled, inputsDisabled. rewrite H. cbn.
    repeat split; intros; rewrite andb_false_r; reflexivity.
Qed.

Lemma no_submit_is_delivered_while_submitting_witness :
  (inFlight busyWorld <= 1)%nat
  /\ dispatch (FormSubmitted 1700000001456) busyWorld = busyWorld.
Proof.
  destruct (no_submit_is_delivered_while_submitting busyWorld
              (reachable_run fillAndSubmit)) as (Hfl & H).
  split; [exact Hfl|].
  destruct (H eq_refl) as (_ & _ & Hs & _).
  apply Hs.
Defined.

(** ** Stored result and stored message *)



(** ** The deadline *)

Lemma of_Z_mul (a b : Z) :
  0 < a -> 0 < b -> a * b < 2 ^ 53 -> mul (of_Z a) (of_Z b) = of_Z (a * b).
Proof.
  intros Ha Hb H.
  destruct a as [|a|a]; try lia. destruct b as [|b|b]; try lia.
  rewrite !of_Z_pos by nia.
  change (Z.pos a * Z.pos b) with (Zpos (a * b)).
  rewrite of_Z_pos by (rewrite Pos2Z.inj_mul; exact H).
  apply mul_canon. exact H.
Qed.

Lemma of_Z_add (a b : Z) :
  0 <= a -> 0 < b -> a + b < 2 ^ 53 -> add (of_Z a) (of_Z b) = of_Z (a + b).
Proof.
  intros Ha Hb H.
  destruct b as [|b|b]; try lia. destruct a as [|a|a]; try lia.
  - change (0 + Z.pos b) with (Z.pos b). rewrite (of_Z_pos b) by lia.
    reflexivity.
  - rewrite !of_Z_pos by lia.
    change (Z.pos a + Z.pos b) with (Zpos (a + b)).
    rewrite of_Z_pos by (rewrite Pos2Z.inj_add; exact H).
    apply add_canon. exact H.
Qed.

(** With a clock at [T] seconds and a duration of [d] days, the deadline
    computed in binary64 is the integer [T + d * 86400]. *)
Lemma deadline_of_exact (T d : Z) (days : jsstring) :
  parseInt days = of_Z d ->
  0 <= T -> 0 < d -> T + d * 86400 < 2 ^ 53 ->
  deadline_of (of_Z T) days = of_Z (T + d * 86400).
Proof.
  intros Hp HT Hd H. unfold deadline_of. rewrite Hp.
  rewrite (of_Z_mul d 24) by lia.
  rewrite (of_Z_mul (d * 24) 60) by lia.
  rewrite (of_Z_mul (d * 24 * 60) 60) by lia.
  rewrite of_Z_add by lia.
  f_equal. lia.
Qed.

(** C6, as stated, fails for durations so long that the products leave the
    integers binary64 holds exactly. With the clock at 1700000000 seconds
    and a duration of "1000000000000001" days, which parses to exactly that
    integer and passes validation, the three successive multiplications by
    24, 60 and 60 round, and the deadline passed to [createPool] is one
    unit in the last place above the Number nearest to [T + d * 86400]. *)
Lemma deadline_rounds_for_huge_durations :
  validate (snd (setFormData (fun _ => longForm) samplePage)) = Ok
  /\ now_seconds 1700000000123 = of_Z 1700000000
  /\ parseInt (durationDays longForm) = of_Z 1000000000000001
  /\ calls (submit 1700000000123
              (mkWorld (snd (setFormData (fun _ => longForm) samplePage)) [] 0))
     = [request_of 1700000000123 longForm]
  /\ req_deadline (request_of 1700000000123 longForm)
     = S754_finite false 5273437500103766 14
  /\ of_Z (1700000000 + 1000000000000001 * 86400)
     = S754_finite false 5273437500103765 14
  /\ req_deadline (request_of 1700000000123 longForm)
     <> of_Z (1700000000 + 1000000000000001 * 86400).
Proof.
  repeat match goal with |- _ /\ _ => split end;
    try (vm_compute; reflexivity).
  vm_compute. discriminate.
Qed.

(** C6, amended. A [handleSubmit] call that passes both gates, made when
    the clock reads [T] seconds, calls [createPool] with the form's fields
    and with deadline [T + d * 86400], where [d] is the integer the duration
    parses to, as long as that sum is below 2^53; a duration of "30" gives
    [T + 2592000]. *)
Theorem deadline_is_submission_time_plus_days (dateNow T : Z) (w : World) :
  connected (publicKey (page w)) = true ->
  validate (page w) = Ok ->
  now_seconds dateNow = of_Z T ->
  0 <= T ->
  calls (submit dateNow w)
  = calls w ++ [request_of dateNow (formData (page w))]
  /\ (forall d,
        parseInt (durationDays (formData (page w))) = of_Z d ->
        0 < d -> T + d * 86400 < 2 ^ 53 ->
        req_deadline (request_of dateNow (formData (page w)))
        = of_Z (T + d * 86400))
  /\ (durationDays (formData (page w)) = js "30" ->
      T + 2592000 < 2 ^ 53 ->
      req_deadline (request_of dateNow (formData (page w)))
      = of_Z (T + 2592000)).
Proof.
  intros Hc Hv Hnow HT.
  rewrite validate_first_violation in Hv.
  destruct (first_violation (formData (page w))) as [r|] eqn:E;
    [discriminate Hv|].
  split; [|split].
  - unfold submit. rewrite (handleSubmit_valid _ _ Hc E). reflexivity.
  - intros d Hp Hd H. cbn [request_of req_deadline]. rewrite Hnow.
    apply deadline_of_exact; assumption.
  - intros H30 H. cbn [request_of req_deadline]. rewrite Hnow, H30.
    change (T + 2592000) with (T + 30 * 86400).
    apply deadline_of_exact; try assumption; [|lia].
    vm_compute. reflexivity.
Qed.

Lemma deadline_is_submission_time_plus_days_witness :
  calls (submit 1700000000123 (mkWorld samplePage [] 0))
  = [request_of 1700000000123 sampleForm]
  /\ req_deadline (request_of 1700000000123 sampleForm)
     = of_Z (1700000000 + 30 * 86400)
  /\ req_deadline (request_of 1700000000123 sampleForm)
     = of_Z (1700000000 + 2592000).
Proof.
  assert (Hv : validate samplePage = Ok) by (vm_compute; reflexivity).
  assert (Hn : now_seconds 1700000000123 = of_Z 1700000000)
    by (vm_compute; reflexivity).
  assert (HT : 0 <= 1700000000) by lia.
  destruct (deadline_is_submission_time_plus_days 1700000000123 1700000000
              (mkWorld samplePage [] 0) eq_refl Hv Hn HT) as (Hc & Hd & H30).
  split; [exact Hc|]. split.
  - apply (Hd 30); [vm_compute; reflexivity | lia | lia].
  - apply H30; [reflexivity | lia].
Defined.

(** * Further properties of the page *)

(** ** Editing the form *)

(** X1. [handleInputChange] writes exactly the named field: reading it back
    gives the typed value, the five other fields and the rest of the page
    keep their values, typing twice in a field keeps the last value, and
    edits of different fields commute. *)
Theorem input_change_writes_one_field (fld fld' : Field) (v v' : jsstring) (p : Page) :
  get_field fld (formData (set_field fld v p)) = v
  /\ (fld' <> fld ->
      get_field fld' (formData (set_field fld v p)) = get_field fld' (formData p))
  /\ set_field fld v' (set_field fld v p) = set_field fld v' p
  /\ (fld' <> fld ->
      set_field fld' v' (set_field fld v p) = set_field fld v (set_field fld' v' p))
  /\ publicKey (set_field fld v p) = publicKey p
  /\ submissionState (set_field fld v p) = submissionState p
  /\ errorMessage (set_field fld v p) = errorMessage p
  /\ txHash (set_field fld v p) = txHash p
  /\ poolId (set_field fld v p) = poolId p.
Proof.
  repeat match goal with |- _ /\ _ => split end; try reflexivity.
  - destruct fld; reflexivity.
  - intros H. destruct fld, fld'; try reflexivity; contradiction H; reflexivity.
  - destruct fld; reflexivity.
  - intros H. destruct fld, fld'; try reflexivity; contradiction H; reflexivity.
Qed.

(** X2. The form is never reset: every event other than an edit, whether
    delivered or not, leaves the six fields as they were, and every event
    other than a wallet answer leaves the wallet key as it was. *)
Theorem only_edits_change_the_form (e : Event) (w : World) :
  ((forall fld v, e <> InputChanged fld v) ->
   formData (page (dispatch e w)) = formData (page w))
  /\ ((forall k, e <> WalletChecked k) -> (forall k, e <> WalletConnected k) ->
      publicKey (page (dispatch e w)) = publicKey (page w)).
Proof.
  split.
  - intros H. destruct e as [key|key|fld value|dateNow| |s]; unfold dispatch.
    + destruct (isCheckingWallet (page w)); reflexivity.
    + reflexivity.
    + exfalso. exact (H fld value eq_refl).
    + destruct (formRendered (page w) && negb (submitDisabled (page w)));
        [|reflexivity].
      destruct (submit_cases dateNow w) as [[m ->]| ->]; reflexivity.
    + destruct (tryAgainRendered (page w)); reflexivity.
    + destruct (inFlight w); [reflexivity|].
      destruct s as [result|[|errorObj|]]; reflexivity.
  - intros H1 H2. destruct e as [key|key|fld value|dateNow| |s]; unfold dispatch.
    + exfalso. exact (H1 key eq_refl).
    + exfalso. exact (H2 key eq_refl).
    + destruct (formRendered (page w) && negb (inputsDisabled (page w)));
        reflexivity.
    + destruct (formRendered (page w) && negb (submitDisabled (page w)));
        [|reflexivity].
      destruct (submit_cases dateNow w) as [[m ->]| ->]; reflexivity.
    + destruct (tryAgainRendered (page w)); reflexivity.
    + destruct (inFlight w); [reflexivity|].
      destruct s as [result|[|errorObj|]]; reflexivity.
Qed.

(** ** What a submit event does *)

Lemma delivered_submit_step (dateNow : Z) (w : World) :
  formRendered (page w) && negb (submitDisabled (page w)) = true ->
  connected (publicKey (page w)) = true
  /\ submissionState (page w) <> submitting
  /\ match first_violation (formData (page w)) with
     | Some r =>
         dispatch (FormSubmitted dateNow) w
         = mkWorld (with_error (rule_message r) (page w)) (calls w) (inFlight w)
     | None =>
         dispatch (FormSubmitted dateNow) w
         = mkWorld (submitting_page (page w))
                   (calls w ++ [request_of dateNow (formData (page w))])
                   (S (inFlight w))
     end.
Proof.
  intros G. unfold dispatch. rewrite G.
  unfold formRendered, submitDisabled in G.
  assert (Hc : connected (publicKey (page w)) = true).
  { destruct (connected (publicKey (page w))); [reflexivity|].
    rewrite !andb_false_r in G. discriminate G. }
  split; [exact Hc|].
  split; [intros H; rewrite H in G; cbn in G; rewrite andb_false_r in G;
          discriminate G|].
  unfold submit.
  destruct (first_violation (formData (page w))) as [r|] eqn:E.
  - rewrite (handleSubmit_invalid _ _ _ Hc E). reflexivity.
  - rewrite (handleSubmit_valid _ _ Hc E). reflexivity.
Qed.

(** X3. A submit event does one of three things. It is not delivered (the
    form is not rendered or the button is disabled) and nothing changes; or
    it is delivered, which requires a connected wallet, and the form
    violates a rule: the rule's message is set and nothing else changes; or
    it is delivered and the form validates: the page enters Submitting and
    one request is appended. The wallet guard of [handleSubmit] is thus
    never the branch taken by a delivered submit. *)
Theorem delivered_submit_trichotomy (dateNow : Z) (w : World) :
  (formRendered (page w) && negb (submitDisabled (page w)) = false ->
   dispatch (FormSubmitted dateNow) w = w)
  /\ (formRendered (page w) && negb (submitDisabled (page w)) = true ->
      connected (publicKey (page w)) = true
      /\ submissionState (page w) <> submitting
      /\ submissionState (page w) <> success
      /\ handleSubmit dateNow (page w)
         <> (Returned, with_error (js "Please connect your wallet first") (page w))
      /\ match first_violation (formData (page w)) with
         | Some r =>
             dispatch (FormSubmitted dateNow) w
             = mkWorld (with_error (rule_message r) (page w)) (calls w) (inFlight w)
         | None =>
             dispatch (FormSubmitted dateNow) w
             = mkWorld (submitting_page (page w))
                       (calls w ++ [request_of dateNow (formData (page w))])
                       (S (inFlight w))
         end).
Proof.
  split; intros G; [unfold dispatch; rewrite G; reflexivity|].
  destruct (delivered_submit_step dateNow w G) as (Hc & Hns & Hd).
  split; [exact Hc|]. split; [exact Hns|].
  split.
  { unfold formRendered in G. intros H. rewrite H in G. cbn in G.
    rewrite andb_false_r in G. discriminate G. }
  split; [|exact Hd].
  destruct (first_violation (formData (page w))) as [r|] eqn:E.
  - rewrite (handleSubmit_invalid _ _ _ Hc E).
    intros H. injection H as H.
    destruct r; vm_compute in H; discriminate H.
  - rewrite (handleSubmit_valid _ _ Hc E). discriminate.
Qed.

(** ** The requests made *)

Lemma request_of_passes (dateNow : Z) (f : FormData) :
  first_violation f = None -> request_passes (request_of dateNow f).
Proof.
  intros E. pose proof (first_violation_none _ E) as H.
  pose proof (H NameRequired) as H1.
  pose proof (H DescriptionRequired) as H2.
  pose proof (H DescriptionTooLong) as H3.
  pose proof (H ExternalUrlRequired) as H4.
  pose proof (H ExternalUrlTooLong) as H5.
  pose proof (H ImageHashRequired) as H6.
  pose proof (H ImageHashTooLong) as H7.
  pose proof (H TargetAmountNotPositive) as H8.
  cbn [violates] in *.
  apply Nat.ltb_ge in H3, H5, H7.
  unfold request_passes. cbn. repeat split; assumption.
Qed.

Lemma tracked_initial : tracked initialWorld.
Proof.
  unfold tracked. cbn. split; [intros H; contradiction H; reflexivity|].
  split; [constructor|intros H; discriminate H].
Qed.

Lemma tracked_frame (w w' : World) :
  submissionState (page w') = submissionState (page w) ->
  formData (page w') = formData (page w) ->
  calls w' = calls w ->
  (submissionState (page w) <> idle ->
   isCheckingWallet (page w) = false -> isCheckingWallet (page w') = false) ->
  tracked w -> tracked w'.
Proof.
  unfold tracked. intros -> -> -> Hck (H1 & H2 & H3).
  split; [|split]; auto.
Qed.

Lemma tracked_dispatch (e : Event) (w : World) :
  consistent w -> tracked w -> tracked (dispatch e w).
Proof.
  intros HC HT.
  destruct e as [key|key|fld value|dateNow| |s]; unfold dispatch.
  - destruct (isCheckingWallet (page w)); [|exact HT].
    apply (tracked_frame w); try reflexivity; auto.
  - apply (tracked_frame w); try reflexivity; auto.
  - destruct (formRendered (page w) && negb (inputsDisabled (page w))) eqn:G;
      [|exact HT].
    destruct HT as (H1 & H2 & H3). unfold tracked. cbn.
    split; [exact H1|]. split; [exact H2|].
    intros Hs. unfold inputsDisabled in G. rewrite Hs in G. cbn in G.
    rewrite andb_false_r in G. discriminate G.
  - destruct (formRendered (page w) && negb (submitDisabled (page w))) eqn:G;
      [|exact HT].
    destruct (delivered_submit_step dateNow w G) as (_ & Hns & Hd).
    unfold dispatch in Hd. rewrite G in Hd.
    assert (Hck : isCheckingWallet (page w) = false).
    { unfold formRendered in G.
      destruct (isCheckingWallet (page w)); [discriminate G|reflexivity]. }
    destruct HT as (H1 & H2 & H3).
    destruct (first_violation (formData (page w))) as [r|] eqn:E; rewrite Hd;
      unfold tracked; cbn.
    + split; [intros _; exact Hck|]. split; [exact H2|].
      intros Hs. contradiction.
    + split; [intros _; exact Hck|]. split.
      * apply Forall_app. split; [exact H2|].
        constructor; [|constructor]. apply request_of_passes. exact E.
      * intros _. exists dateNow, (calls w). reflexivity.
  - destruct (tryAgainRendered (page w)) eqn:G; [|exact HT].
    destruct HT as (H1 & H2 & H3). unfold tracked. cbn.
    split; [intros H; contradiction H; reflexivity|].
    split; [exact H2|intros H; discriminate H].
  - destruct (inFlight w) as [|n] eqn:Hn; [exact HT|].
    destruct HC as (Hfl & _). rewrite Hn in Hfl.
    destruct (submissionState (page w)) eqn:Hs; cbn in Hfl;
      try discriminate Hfl.
    destruct HT as (H1 & H2 & H3).
    assert (Hck : isCheckingWallet (page w) = false)
      by (apply H1; rewrite Hs; discriminate).
    destruct s as [result|[|errorObj|]]; unfold tracked, settle; cbn;
      (split; [intros _; exact Hck|]); (split; [exact H2|intros H; discriminate H]).
Qed.

Lemma reachable_tracked (w : World) : reachable w -> tracked w.
Proof.
  intros [es <-]. induction es as [|e es IH] using rev_ind.
  - exact tracked_initial.
  - rewrite run_snoc. apply tracked_dispatch; [|exact IH].
    apply reachable_consistent. apply reachable_run.
Qed.

Lemma reachable_dispatch (e : Event) (w : World) :
  reachable w -> reachable (dispatch e w).
Proof.
  intros [es <-]. exists (es ++ [e]). apply run_snoc.
Qed.

Lemma reachable_run_from (es : list Event) (w : World) :
  reachable w -> reachable (run es w).
Proof.
  revert w. induction es as [|e es IH]; intros w Hr; [exact Hr|].
  cbn. apply IH. apply reachable_dispatch. exact Hr.
Qed.

(** X4. Every request that reached [createPool], on any run of the page,
    was built from a form that had passed validation: name, description,
    external URL and image hash are not blank, the three limits hold, and
    the target amount is present and does not parse to a number [<= 0]. *)
Theorem every_request_passed_validation (w : World) (r : CreatePoolRequest) :
  reachable w -> In r (calls w) -> request_passes r.
Proof.
  intros Hr Hin. destruct (reachable_tracked _ Hr) as (_ & H & _).
  rewrite Forall_forall in H. apply H. exact Hin.
Qed.

Lemma busyWorld_calls :
  calls busyWorld = [request_of 1700000000123 sampleForm].
Proof. vm_compute. reflexivity. Qed.

Lemma every_request_passed_validation_witness :
  request_passes (request_of 1700000000123 sampleForm).
Proof.
  apply (every_request_passed_validation busyWorld).
  - exact (reachable_run fillAndSubmit).
  - rewrite busyWorld_calls. left. reflexivity.
Defined.

(** X5. While the page is Submitting, exactly one request is in flight, it
    is the last one made, and it carries the fields of the form still on
    the page, which no event can edit until the request settles. *)
Theorem request_in_flight_is_the_form_on_screen (w : World) :
  reachable w ->
  submissionState (page w) = submitting ->
  inFlight w = 1%nat
  /\ (exists dateNow earlier,
        calls w = earlier ++ [request_of dateNow (formData (page w))])
  /\ (forall e, (forall s, e <> CreatePoolSettled s) ->
        submissionState (page (dispatch e w)) = submitting
        /\ formData (page (dispatch e w)) = formData (page w)
        /\ calls (dispatch e w) = calls w).
Proof.
  intros Hr Hs.
  destruct (reachable_consistent _ Hr) as (Hfl & _).
  destruct (reachable_tracked _ Hr) as (_ & _ & Hlast).
  rewrite Hs in Hfl. split; [exact Hfl|]. split; [exact (Hlast Hs)|].
  intros e He. destruct e as [key|key|fld value|dateNow| |s]; unfold dispatch.
  - destruct (isCheckingWallet (page w)); repeat split; exact Hs.
  - repeat split; exact Hs.
  - unfold inputsDisabled. rewrite Hs. cbn. rewrite andb_false_r.
    repeat split; exact Hs.
  - unfold submitDisabled. rewrite Hs. cbn. rewrite andb_false_r.
    repeat split; exact Hs.
  - unfold tryAgainRendered. rewrite Hs. cbn. rewrite andb_false_r.
    repeat split; exact Hs.
  - exfalso. exact (He s eq_refl).
Qed.

Lemma request_in_flight_witness :
  inFlight busyWorld = 1%nat
  /\ exists dateNow earlier,
       calls busyWorld = earlier ++ [request_of dateNow (formData (page busyWorld))].
Proof.
  destruct (request_in_flight_is_the_form_on_screen busyWorld
              (reachable_run fillAndSubmit) eq_refl) as (H1 & H2 & _).
  split; assumption.
Defined.

(** ** After the gateway has answered *)

Lemma classify_nonempty (errorObj : RawError) :
  err_message (classify errorObj) <> [].
Proof.
  unfold classify.
  destruct (message_includes errorObj (js "User rejected"));
    [vm_compute; discriminate|].
  destruct (message_includes errorObj (js "Simulation failed"));
    [vm_compute; discriminate|].
  destruct (message_includes errorObj (js "Transaction failed"));
    [cbn; discriminate|].
  cbn [err_message]. apply or_else_nonempty. vm_compute. discriminate.
Qed.

(** X6. A settlement is delivered only while the page is Submitting, where
    it resumes [handleSubmit]: a fulfilment stores the transaction hash and
    the pool id and enters Success with no message; a rejection enters
    Error with no stored result, and with the classified, non-empty message
    when the caught value has the shape the [catch] block assumes, but with
    an empty message when the [if] chain throws on it.  Either way no
    request is left in flight.  In any other state a settlement event
    changes nothing. *)
Theorem settlement_ends_the_submission (s : Settlement) (w : World) :
  reachable w ->
  (submissionState (page w) <> submitting ->
   dispatch (CreatePoolSettled s) w = w)
  /\ (submissionState (page w) = submitting ->
      dispatch (CreatePoolSettled s) w = settle s w
      /\ inFlight (settle s w) = 0%nat
      /\ calls (settle s w) = calls w
      /\ match s with
         | Fulfilled result =>
             submissionState (page (settle s w)) = success
             /\ txHash (page (settle s w)) = res_txHash result
             /\ poolId (page (settle s w)) = res_poolId result
             /\ errorMessage (page (settle s w)) = []
         | Rejected caught =>
             submissionState (page (settle s w)) = error
             /\ txHash (page (settle s w)) = []
             /\ poolId (page (settle s w)) = None
             /\ match classify_caught caught with
                | Some classified =>
                    errorMessage (page (settle s w)) = err_message classified
                    /\ errorMessage (page (settle s w)) <> []
                | None => errorMessage (page (settle s w)) = []
                end
         end).
Proof.
  intros Hr. destruct (reachable_consistent _ Hr) as (Hfl & Hres & Hmsg).
  split; intros Hs; unfold dispatch.
  - destruct (submissionState (page w)) eqn:E; cbn in Hfl; rewrite Hfl;
      try reflexivity. contradiction Hs. reflexivity.
  - rewrite Hs in Hfl. cbn in Hfl. rewrite Hfl.
    split; [reflexivity|]. split; [unfold settle; cbn; rewrite Hfl; reflexivity|].
    split; [reflexivity|].
    destruct s as [result|caught].
    + cbn. repeat split. apply Hmsg. left. exact Hs.
    + destruct Hres as [Htx Hid]; [rewrite Hs; discriminate|].
      assert (Hempty : errorMessage (page w) = [])
        by (apply Hmsg; left; exact Hs).
      destruct caught as [|errorObj|]; cbn.
      * repeat split; assumption.
      * repeat split; try assumption.
        apply (classify_nonempty errorObj).
      * repeat split; assumption.
Qed.

Lemma settlement_ends_the_submission_witness :
  dispatch (CreatePoolSettled (Fulfilled (mkResult (js "tx1") (Some 5)))) busyWorld
  = settle (Fulfilled (mkResult (js "tx1") (Some 5))) busyWorld.
Proof.
  destruct (settlement_ends_the_submission
              (Fulfilled (mkResult (js "tx1") (Some 5))) busyWorld
              (reachable_run fillAndSubmit)) as [_ H].
  destruct (H eq_refl) as [Hd _]. exact Hd.
Defined.

Lemma success_step (e : Event) (w : World) :
  reachable w ->
  submissionState (page w) = success ->
  submissionState (page (dispatch e w)) = success
  /\ txHash (page (dispatch e w)) = txHash (page w)
  /\ poolId (page (dispatch e w)) = poolId (page w)
  /\ formData (page (dispatch e w)) = formData (page w)
  /\ calls (dispatch e w) = calls w.
Proof.
  intros Hr Hs. destruct (reachable_consistent _ Hr) as (Hfl & _).
  rewrite Hs in Hfl. cbn in Hfl.
  destruct e as [key|key|fld value|dateNow| |s]; unfold dispatch.
  - destruct (isCheckingWallet (page w)); repeat split; exact Hs.
  - repeat split; exact Hs.
  - unfold formRendered. rewrite Hs. cbn. rewrite andb_false_r. cbn.
    repeat split; exact Hs.
  - unfold formRendered. rewrite Hs. cbn. rewrite andb_false_r. cbn.
    repeat split; exact Hs.
  - unfold tryAgainRendered. rewrite Hs. cbn. rewrite andb_false_r.
    repeat split; exact Hs.
  - rewrite Hfl. repeat split; exact Hs.
Qed.

(** X7. Success is final and the stored result is never changed: once the
    page is in Success, whatever events follow, it stays in Success with
    the same transaction hash, pool id and form fields, and no further
    request is made. *)
Theorem success_is_final (es : list Event) (w : World) :
  reachable w ->
  submissionState (page w) = success ->
  submissionState (page (run es w)) = success
  /\ txHash (page (run es w)) = txHash (page w)
  /\ poolId (page (run es w)) = poolId (page w)
  /\ formData (page (run es w)) = formData (page w)
  /\ calls (run es w) = calls w.
Proof.
  revert w. induction es as [|e es IH]; intros w Hr Hs.
  - repeat split; exact Hs.
  - destruct (success_step e w Hr Hs) as (H1 & H2 & H3 & H4 & H5).
    destruct (IH (dispatch e w) (reachable_dispatch e w Hr) H1)
      as (I1 & I2 & I3 & I4 & I5).
    change (run (e :: es) w) with (run es (dispatch e w)).
    repeat split; congruence.
Qed.

Lemma success_is_final_witness :
  submissionState
    (page (run [FormSubmitted 1700000001456; TryAgainClicked;
                InputChanged f_name (js "Another pool")] doneWorld)) = success
  /\ txHash
       (page (run [FormSubmitted 1700000001456; TryAgainClicked;
                   InputChanged f_name (js "Another pool")] doneWorld))
     = txHash (page doneWorld).
Proof.
  destruct (success_is_final
              [FormSubmitted 1700000001456; TryAgainClicked;
               InputChanged f_name (js "Another pool")] doneWorld
              (reachable_run _) eq_refl) as (H1 & H2 & _).
  split; assumption.
Defined.

(** X8. The form stays usable in the Error state: with the wallet
    connected, a submit is delivered without "Try Again" being clicked
    first. If the form validates, the page goes straight to Submitting with
    the message emptied and one more request; if it violates a rule, the
    state stays Error and the rule's message replaces the failure text in
    the error panel, while no inline message is shown. *)
Theorem submit_from_error_state (dateNow : Z) (w : World) :
  submissionState (page w) = error ->
  isCheckingWallet (page w) = false ->
  connected (publicKey (page w)) = true ->
  formRendered (page w) = true
  /\ submitDisabled (page w) = false
  /\ match first_violation (formData (page w)) with
     | Some r =>
         dispatch (FormSubmitted dateNow) w
         = mkWorld (with_error (rule_message r) (page w)) (calls w) (inFlight w)
         /\ submissionState (with_error (rule_message r) (page w)) = error
         /\ errorPanel (with_error (rule_message r) (page w))
            = Some (rule_message r)
         /\ inlineError (with_error (rule_message r) (page w)) = None
     | None =>
         dispatch (FormSubmitted dateNow) w
         = mkWorld (submitting_page (page w))
                   (calls w ++ [request_of dateNow (formData (page w))])
                   (S (inFlight w))
     end.
Proof.
  intros Hs Hck Hc.
  assert (Hf : formRendered (page w) = true)
    by (unfold formRendered; rewrite Hs, Hck, Hc; reflexivity).
  assert (Hd : submitDisabled (page w) = false)
    by (unfold submitDisabled; rewrite Hs, Hc; reflexivity).
  split; [exact Hf|]. split; [exact Hd|].
  assert (G : formRendered (page w) && negb (submitDisabled (page w)) = true)
    by (rewrite Hf, Hd; reflexivity).
  destruct (delivered_submit_step dateNow w G) as (_ & _ & Hm).
  destruct (first_violation (formData (page w))) as [r|]; [|exact Hm].
  split; [exact Hm|]. split; [exact Hs|].
  unfold errorPanel, inlineError, tryAgainRendered, formRendered. cbn.
  rewrite Hs, Hck. cbn. rewrite andb_false_r. split; reflexivity.
Qed.

Lemma submit_from_error_state_witness :
  dispatch (FormSubmitted 1700000001456) (mkWorld errorPage [] 0)
  = mkWorld (with_error (js "Pool name is required") errorPage) [] 0.
Proof.
  pose proof (submit_from_error_state 1700000001456 (mkWorld errorPage [] 0)
                eq_refl eq_refl eq_refl) as (_ & _ & H).
  destruct H as [H _]. exact H.
Defined.

(** ** The loader *)

(** X9. While the wallet check is pending the page shows the loader only:
    no edit, submit or "Try Again" is delivered and no panel is rendered.
    The answer to the check stores the key and removes the loader, and no
    event ever brings the loader back. *)
Theorem loader_gates_the_page (w : World) :
  (isCheckingWallet (page w) = true ->
   (forall fld v, dispatch (InputChanged fld v) w = w)
   /\ (forall dateNow, dispatch (FormSubmitted dateNow) w = w)
   /\ dispatch TryAgainClicked w = w
   /\ formRendered (page w) = false
   /\ connectPromptRendered (page w) = false
   /\ successPanelRendered (page w) = false
   /\ errorPanel (page w) = None
   /\ inlineError (page w) = None
   /\ (forall key,
         isCheckingWallet (page (dispatch (WalletChecked key) w)) = false
         /\ publicKey (page (dispatch (WalletChecked key) w)) = key))
  /\ (isCheckingWallet (page w) = false ->
      forall e, isCheckingWallet (page (dispatch e w)) = false).
Proof.
  split; intros Hck.
  - unfold dispatch, formRendered, tryAgainRendered, connectPromptRendered,
      successPanelRendered, errorPanel, inlineError, tryAgainRendered,
      formRendered.
    rewrite Hck. cbn. repeat split.
  - intros e. destruct e as [key|key|fld value|dateNow| |s]; unfold dispatch.
    + rewrite Hck. exact Hck.
    + exact Hck.
    + destruct (formRendered (page w) && negb (inputsDisabled (page w)));
        exact Hck.
    + destruct (formRendered (page w) && negb (submitDisabled (page w)));
        [|exact Hck].
      destruct (submit_cases dateNow w) as [[m ->]| ->]; exact Hck.
    + destruct (tryAgainRendered (page w)); exact Hck.
    + destruct (inFlight w); [exact Hck|].
      destruct s as [result|[|errorObj|]]; exact Hck.
Qed.

(** ** What is on screen *)

(** X10. The panels exclude one another. The form is never shown together
    with the connect prompt or with the success panel; with the loader gone
    and a wallet connected exactly one of form and success panel is shown.
    The error message is displayed in at most one place (inline under the
    form only in Idle, in the error panel only in Error) and in neither
    while Submitting or in Success. *)
Theorem panels_are_exclusive (p : Page) :
  (formRendered p = true -> connectPromptRendered p = false)
  /\ (formRendered p = true -> successPanelRendered p = false)
  /\ (isCheckingWallet p = false -> connected (publicKey p) = true ->
      formRendered p = negb (successPanelRendered p))
  /\ (isCheckingWallet p = false ->
      connectPromptRendered p = negb (connected (publicKey p)))
  /\ (inlineError p <> None -> errorPanel p = None)
  /\ (inlineError p <> None -> submissionState p = idle)
  /\ (errorPanel p <> None -> submissionState p = error)
  /\ (submissionState p = submitting \/ submissionState p = success ->
      inlineError p = None /\ errorPanel p = None).
Proof.
  unfold formRendered, connectPromptRendered, successPanelRendered,
    inlineError, errorPanel, tryAgainRendered, formRendered.
  destruct (isCheckingWallet p), (connected (publicKey p)),
    (submissionState p), (truthy (errorMessage p)); cbn;
    repeat split; try reflexivity; try discriminate; try congruence;
    intros; try congruence;
    try (destruct H as [H|H]; discriminate H).
Qed.

Lemma settlement_step (s : Settlement) (w : World) :
  reachable w ->
  submissionState (page w) = submitting ->
  dispatch (CreatePoolSettled s) w = settle s w
  /\ isCheckingWallet (page w) = false.
Proof.
  intros Hr Hs. destruct (reachable_consistent _ Hr) as (Hfl & _).
  destruct (reachable_tracked _ Hr) as (Hck & _).
  rewrite Hs in Hfl. cbn in Hfl. unfold dispatch. rewrite Hfl.
  split; [reflexivity|]. apply Hck. rewrite Hs. discriminate.
Qed.

(** X11. After a fulfilment the success panel is rendered; it labels the
    pool id exactly when the gateway returned a non-zero id (an id of 0 is
    falsy, so it appears without its label, and a missing id not at all),
    and it links to the explorer exactly when the returned transaction hash
    is not empty. *)
Theorem success_panel_after_fulfilment (result : CreatePoolResult) (w : World) :
  reachable w ->
  submissionState (page w) = submitting ->
  successPanelRendered (page (dispatch (CreatePoolSettled (Fulfilled result)) w))
  = true
  /\ formRendered (page (dispatch (CreatePoolSettled (Fulfilled result)) w))
     = false
  /\ (forall n,
        poolIdView (page (dispatch (CreatePoolSettled (Fulfilled result)) w))
        = PoolIdLabelled n
        <-> res_poolId result = Some n /\ n <> 0)
  /\ (res_poolId result = Some 0 ->
      poolIdView (page (dispatch (CreatePoolSettled (Fulfilled result)) w))
      = PoolIdBare 0)
  /\ explorerLinkRendered
       (page (dispatch (CreatePoolSettled (Fulfilled result)) w))
     = truthy (res_txHash result).
Proof.
  intros Hr Hs.
  destruct (settlement_step (Fulfilled result) w Hr Hs) as [Hd Hck].
  rewrite Hd.
  unfold successPanelRendered, formRendered, explorerLinkRendered,
    successPanelRendered, poolIdView, settle. cbn. rewrite Hck. cbn.
  repeat match goal with |- _ /\ _ => split end; try reflexivity.
  - intros n. split.
    + intros H. destruct (res_poolId result) as [[|n'|n']|];
        try discriminate H; injection H as <-; split; (reflexivity || discriminate).
    + intros [H Hn]. rewrite H. destruct n; [contradiction Hn|..]; reflexivity.
  - intros ->. reflexivity.
Qed.

Lemma success_panel_after_fulfilment_witness :
  poolIdView
    (page (dispatch (CreatePoolSettled (Fulfilled (mkResult (js "tx0") (Some 0))))
             busyWorld))
  = PoolIdBare 0.
Proof.
  destruct (success_panel_after_fulfilment (mkResult (js "tx0") (Some 0))
              busyWorld (reachable_run fillAndSubmit) eq_refl)
    as (_ & _ & _ & H & _).
  apply H. reflexivity.
Defined.

(** ** The record of requests *)

(** X13. The record of [createPool] calls only grows, and only submit
    events make it grow, by one request each at most: after any run the
    earlier requests are still there, in order, followed by no more new
    requests than the run has submit events. *)
Theorem requests_only_grow_with_submits (es : list Event) (w : World) :
  exists added,
    calls (run es w) = calls w ++ added
    /\ (List.length added <= submits es)%nat.
Proof.
  revert w. induction es as [|e es IH]; intros w.
  - exists []. cbn. rewrite app_nil_r. split; [reflexivity|lia].
  - change (run (e :: es) w) with (run es (dispatch e w)).
    destruct (IH (dispatch e w)) as (added & Hc & Hl).
    assert (Hstep : exists one,
               calls (dispatch e w) = calls w ++ one
               /\ (List.length one
                   <= submits [e])%nat).
    { destruct e as [key|key|fld value|dateNow| |s]; unfold dispatch.
      - exists []. rewrite app_nil_r.
        destruct (isCheckingWallet (page w)); split; cbn; auto.
      - exists []. rewrite app_nil_r. split; cbn; auto.
      - exists []. rewrite app_nil_r.
        destruct (formRendered (page w) && negb (inputsDisabled (page w)));
          split; cbn; auto.
      - destruct (formRendered (page w) && negb (submitDisabled (page w))).
        + destruct (submit_cases dateNow w) as [[m ->]| ->].
          * exists []. rewrite app_nil_r. split; cbn; auto.
          * exists [request_of dateNow (formData (page w))].
            split; cbn; auto.
        + exists []. rewrite app_nil_r. split; cbn; auto.
      - exists []. rewrite app_nil_r.
        destruct (tryAgainRendered (page w)); split; cbn; auto.
      - exists []. rewrite app_nil_r.
        destruct (inFlight w); split; cbn; auto. }
    destruct Hstep as (one & Ho & Hlo).
    exists (one ++ added). rewrite Hc, Ho, <- app_assoc. split; [reflexivity|].
    rewrite length_app.
    change (submits (e :: es)) with (submits ([e] ++ es)).
    unfold submits in *. rewrite filter_app, length_app. lia.
Qed.

(** ** Negative amounts and durations *)

Lemma shr_1_nonneg (mrs : shr_record) : 0 <= shr_m mrs -> 0 <= shr_m (shr_1 mrs).
Proof.
  destruct mrs as [m r s]. cbn [shr_m]. intros H.
  destruct m as [|[p|p|]|p]; cbn; lia.
Qed.

Lemma shr_nonneg (mrs : shr_record) (e n : Z) :
  0 <= shr_m mrs -> 0 <= shr_m (fst (shr mrs e n)).
Proof.
  intros H. unfold shr. destruct n as [|p|p]; cbn [fst]; try exact H.
  rewrite iter_pos_nat. induction (Pos.to_nat p) as [|k IH]; [exact H|].
  cbn [Nat.iter]. apply shr_1_nonneg. exact IH.
Qed.

Lemma shr_record_of_loc_m (m : Z) (l : location) :
  shr_m (shr_record_of_loc m l) = m.
Proof. destruct l as [|[]]; reflexivity. Qed.

Lemma round_nearest_even_nonneg (m : Z) (l : location) :
  0 <= m -> 0 <= round_nearest_even m l.
Proof.
  intros H. destruct l as [|[]]; cbn; try lia. destruct (Z.even m); lia.
Qed.

(** Rounding a magnitude under a minus sign gives a Number that is
    [<= 0]. *)
Lemma binary_round_aux_neg_le (m e : Z) (l : location) :
  0 <= m -> le (binary_round_aux prec emax true m e l) zero = true.
Proof.
  intros H. unfold binary_round_aux, shr_fexp.
  destruct (shr (shr_record_of_loc m l) e
              (fexp prec emax (Zdigits2 m + e) - e)) as [mrs' e'] eqn:E1.
  pose proof (shr_nonneg (shr_record_of_loc m l) e
                (fexp prec emax (Zdigits2 m + e) - e)) as H1.
  rewrite shr_record_of_loc_m, E1 in H1. cbn [fst] in H1. specialize (H1 H).
  pose proof (round_nearest_even_nonneg _ (loc_of_shr_record mrs') H1) as H2.
  set (m2 := round_nearest_even (shr_m mrs') (loc_of_shr_record mrs')) in *.
  destruct (shr (shr_record_of_loc m2 loc_Exact) e'
              (fexp prec emax (Zdigits2 m2 + e') - e')) as [mrs'' e''] eqn:E2.
  pose proof (shr_nonneg (shr_record_of_loc m2 loc_Exact) e'
                (fexp prec emax (Zdigits2 m2 + e') - e')) as H3.
  rewrite E2 in H3. cbn [fst shr_record_of_loc shr_m] in H3. specialize (H3 H2).
  destruct (shr_m mrs'') as [|q|q]; try lia; [reflexivity|].
  destruct (e'' <=? emax - prec); reflexivity.
Qed.

Lemma of_decimal_neg_le (m : N) (e : Z) : le (of_decimal true m e) zero = true.
Proof.
  unfold of_decimal. destruct m as [|p]; [reflexivity|].
  assert (Hpos : forall x, 0 <= x ->
            le (binary_normalize prec emax (cond_Zopp true (Zpos p * 10 ^ x)) 0 true)
               zero = true).
  { intros x Hx. assert (0 < Zpos p * 10 ^ x) by (apply Z.mul_pos_pos; lia).
    destruct (Zpos p * 10 ^ x) as [|q|q] eqn:Eq; try lia.
    cbn [cond_Zopp Z.opp binary_normalize]. unfold binary_round.
    destruct (shl_align q 0 (fexp prec emax (Z.pos (digits2_pos q) + 0)))
      as [mz ez].
    apply binary_round_aux_neg_le. lia. }
  destruct e as [|k|k].
  - apply (Hpos 0). lia.
  - apply (Hpos (Zpos k)). lia.
  - destruct (SFdiv_core_binary prec emax (Z.pos p) 0 (10 ^ Z.pos k) 0)
      as [[q e'] l] eqn:E.
    apply binary_round_aux_neg_le.
    unfold SFdiv_core_binary in E.
    set (s := 0 - 0 - Z.min (fexp prec emax (Zdigits2 (Z.pos p) + 0
                 - (Zdigits2 (10 ^ Z.pos k) + 0))) (0 - 0)) in *.
    set (m' := match s with
               | 0 => Z.pos p
               | Z.pos _ => Z.shiftl (Z.pos p) s
               | Z.neg _ => 0
               end) in *.
    assert (Hm' : 0 <= m').
    { unfold m'. destruct s; try lia. apply Z.shiftl_nonneg. lia. }
    assert (H10 : 0 < 10 ^ Z.pos k) by (apply Z.pow_pos_nonneg; lia).
    pose proof (Z_div_mod m' (10 ^ Z.pos k) ltac:(lia)) as Hdm.
    destruct (Z.div_eucl m' (10 ^ Z.pos k)) as [q0 r0].
    injection E as <- _ _. destruct Hdm as [Hq Hr]. nia.
Qed.

(** [parseFloat] of a minus sign followed by a digit is a Number [<= 0]. *)
Lemma parseFloat_minus_le (d : N) (rest : jsstring) :
  is_digit d = true ->
  le (parseFloat (45%N :: d :: rest)) zero = true.
Proof.
  intros Hd. unfold parseFloat, trimStart.
  change (dropWhile is_whitespace (45%N :: d :: rest)) with (45%N :: d :: rest).
  cbn [strip_sign].
  assert (HI : startsWith (d :: rest) (js "Infinity") = false).
  { change (js "Infinity") with (73%N :: js "nfinity"). cbn [startsWith].
    unfold is_digit in Hd. apply andb_prop in Hd as [H1 H2].
    apply N.leb_le in H1, H2.
    destruct (N.eqb_spec 73 d); [lia|reflexivity]. }
  rewrite HI. cbn [takeWhile dropWhile]. rewrite Hd.
  destruct (match dropWhile is_digit rest with
            | 46%N :: r => (takeWhile is_digit r, dropWhile is_digit r)
            | _ => ([], dropWhile is_digit rest)
            end) as [fp r2].
  cbn [app]. apply of_decimal_neg_le.
Qed.

Lemma parseInt_radix_10 (d : N) (rest : jsstring) :
  d <> 48%N ->
  match d :: rest with
  | 48%N :: x :: r =>
      if ((x =? 120) || (x =? 88))%N then (16%N, r) else (10%N, d :: rest)
  | _ => (10%N, d :: rest)
  end = (10%N, d :: rest).
Proof.
  intros Hd. destruct d as [|q]; [reflexivity|].
  do 7 (try (destruct q as [q|q|]; try reflexivity)).
  contradiction Hd. reflexivity.
Qed.

(** [parseInt] of a minus sign followed by a digit from 1 to 9 is a Number
    [<= 0]. *)
Lemma parseInt_minus_le (d : N) (rest : jsstring) :
  (49 <= d <= 57)%N ->
  le (parseInt (45%N :: d :: rest)) zero = true.
Proof.
  intros Hd. unfold parseInt, trimStart.
  change (dropWhile is_whitespace (45%N :: d :: rest)) with (45%N :: d :: rest).
  cbn [strip_sign]. rewrite parseInt_radix_10 by lia.
  assert (Hr : is_radix_digit 10 d = true).
  { unfold is_radix_digit, digit_value.
    destruct (N.leb_spec 48 d); [|lia]. destruct (N.leb_spec d 57); [|lia].
    cbn [andb]. apply N.ltb_lt. lia. }
  cbn [takeWhile]. rewrite Hr. apply of_decimal_neg_le.
Qed.

(** X14. Negative numbers never pass. A target amount written as a minus
    sign followed by a digit fails validation with "Target amount must be
    greater than 0" once the rules before it pass, whatever follows the
    digit; a duration written as a minus sign followed by a digit from 1 to
    9 fails with "Duration must be greater than 0 days" once the eight
    rules before it pass. *)
Theorem negative_amount_and_duration_are_rejected
    (d : N) (rest : jsstring) (p : Page) :
  (is_digit d = true ->
   (forall r, (rank r <= 7)%nat -> violates r (formData p) = false) ->
   validate (set_field f_targetAmount (45%N :: d :: rest) p)
   = Fail (js "Target amount must be greater than 0"))
  /\ ((49 <= d <= 57)%N ->
      (forall r, (rank r <= 8)%nat -> violates r (formData p) = false) ->
      validate (set_field f_durationDays (45%N :: d :: rest) p)
      = Fail (js "Duration must be greater than 0 days")).
Proof.
  split; intros Hd H.
  - pose proof (H NameRequired ltac:(cbn; lia)) as H1.
    pose proof (H DescriptionRequired ltac:(cbn; lia)) as H2.
    pose proof (H DescriptionTooLong ltac:(cbn; lia)) as H3.
    pose proof (H ExternalUrlRequired ltac:(cbn; lia)) as H4.
    pose proof (H ExternalUrlTooLong ltac:(cbn; lia)) as H5.
    pose proof (H ImageHashRequired ltac:(cbn; lia)) as H6.
    pose proof (H ImageHashTooLong ltac:(cbn; lia)) as H7.
    cbn [violates] in *.
    validate_by_cases. rewrite H1, H2, H3, H4, H5, H6, H7.
    unfold not_positive. rewrite (parseFloat_minus_le d rest Hd).
    rewrite orb_true_r. reflexivity.
  - pose proof (H NameRequired ltac:(cbn; lia)) as H1.
    pose proof (H DescriptionRequired ltac:(cbn; lia)) as H2.
    pose proof (H DescriptionTooLong ltac:(cbn; lia)) as H3.
    pose proof (H ExternalUrlRequired ltac:(cbn; lia)) as H4.
    pose proof (H ExternalUrlTooLong ltac:(cbn; lia)) as H5.
    pose proof (H ImageHashRequired ltac:(cbn; lia)) as H6.
    pose proof (H ImageHashTooLong ltac:(cbn; lia)) as H7.
    pose proof (H TargetAmountNotPositive ltac:(cbn; lia)) as H8.
    cbn [violates] in *.
    validate_by_cases. rewrite H1, H2, H3, H4, H5, H6, H7, H8.
    unfold not_positive. rewrite (parseInt_minus_le d rest Hd).
    rewrite orb_true_r. reflexivity.
Qed.

Lemma negative_amount_and_duration_witness :
  validate (set_field f_targetAmount (js "-5") samplePage)
  = Fail (js "Target amount must be greater than 0")
  /\ validate (set_field f_durationDays (js "-30") samplePage)
     = Fail (js "Duration must be greater than 0 days").
Proof.
  split.
  - apply (negative_amount_and_duration_are_rejected 53 [] samplePage).
    + reflexivity.
    + intros r _. destruct r; reflexivity.
  - apply (negative_amount_and_duration_are_rejected 51 [48%N] samplePage).
    + cbv. split; discriminate.
    + intros r _. destruct r; reflexivity.
Defined.

(** ** Plain positive integers *)

Lemma Zdigits2_log2 (m : Z) : 0 < m -> Zdigits2 m = Z.log2 m + 1.
Proof.
  destruct m as [|p|p]; try lia. intros _. cbn [Zdigits2].
  rewrite <- positive_nat_Z. apply bits_log2.
Qed.

Lemma shr_1_div2 (mrs : shr_record) :
  0 <= shr_m mrs -> shr_m (shr_1 mrs) = Z.div2 (shr_m mrs).
Proof.
  destruct mrs as [m r s]. cbn [shr_m]. intros H.
  destruct m as [|[p|p|]|p]; try reflexivity; lia.
Qed.

Lemma shr_m_iter (k : nat) (mrs : shr_record) :
  0 <= shr_m mrs ->
  shr_m (Nat.iter k shr_1 mrs) = shr_m mrs / 2 ^ Z.of_nat k.
Proof.
  intros H. induction k as [|k IH].
  - cbn. symmetry. apply Z.div_1_r.
  - change (Nat.iter (S k) shr_1 mrs) with (shr_1 (Nat.iter k shr_1 mrs)).
    rewrite shr_1_div2.
    + rewrite IH, Z.div2_div, Z.div_div, Nat2Z.inj_succ, Z.pow_succ_r by lia.
      f_equal. lia.
    + rewrite IH. apply Z.div_pos; lia.
Qed.

Lemma shr_fexp_above_underflow (m e : Z) (l : location) :
  above_underflow m e ->
  above_underflow (shr_m (fst (shr_fexp prec emax m e l)))
                  (snd (shr_fexp prec emax m e l)).
Proof.
  intros [Hm Hd]. unfold shr_fexp.
  rewrite Zdigits2_log2 in * by exact Hm.
  assert (Hf : fexp prec emax (Z.log2 m + 1 + e) - e = Z.log2 m + 1 - 53)
    by (unfold fexp, emin, prec, emax; lia).
  rewrite Hf. unfold shr.
  destruct (Z.log2 m + 1 - 53) as [|n|n] eqn:En; cbn [fst snd];
    rewrite ?shr_record_of_loc_m;
    try (split; [exact Hm | rewrite Zdigits2_log2 by exact Hm; exact Hd]).
  rewrite iter_pos_nat, shr_m_iter by (rewrite shr_record_of_loc_m; lia).
  rewrite shr_record_of_loc_m, positive_nat_Z.
  assert (Hlow : 2 ^ Z.pos n <= m).
  { pose proof (Z.log2_spec m Hm) as [Hl _].
    eapply Z.le_trans; [|exact Hl]. apply Z.pow_le_mono_r; lia. }
  assert (Hq : 0 < m / 2 ^ Z.pos n).
  { apply Z.div_str_pos. split; [apply Z.pow_pos_nonneg; lia|exact Hlow]. }
  split; [exact Hq|].
  rewrite Zdigits2_log2 by exact Hq.
  rewrite <- Z.shiftr_div_pow2 by lia.
  rewrite Z.log2_shiftr by exact Hm. lia.
Qed.

Lemma round_above_underflow (m e : Z) (l : location) :
  above_underflow m e -> above_underflow (round_nearest_even m l) e.
Proof.
  intros [Hm Hd].
  assert (H : m <= round_nearest_even m l).
  { destruct l as [|[]]; cbn; try lia. destruct (Z.even m); lia. }
  split; [lia|].
  rewrite Zdigits2_log2 in * by lia.
  pose proof (Z.log2_le_mono _ _ H). lia.
Qed.

(** Rounding a positive magnitude above the subnormal range gives a Number
    that is not [<= 0]. *)
Lemma binary_round_aux_pos (m e : Z) (l : location) :
  above_underflow m e ->
  le (binary_round_aux prec emax false m e l) zero = false.
Proof.
  intros H. unfold binary_round_aux.
  pose proof (shr_fexp_above_underflow m e l H) as H1.
  destruct (shr_fexp prec emax m e l) as [mrs' e']. cbn [fst snd] in H1.
  pose proof (round_above_underflow _ _ (loc_of_shr_record mrs') H1) as H2.
  pose proof (shr_fexp_above_underflow _ _ loc_Exact H2) as [H3 _].
  destruct (shr_fexp prec emax
              (round_nearest_even (shr_m mrs') (loc_of_shr_record mrs')) e'
              loc_Exact) as [mrs'' e'']. cbn [fst] in H3.
  destruct (shr_m mrs'') as [|q|q]; try lia.
  destruct (e'' <=? emax - prec); reflexivity.
Qed.

(** A positive integer, however large, is a Number that is not [<= 0]
    (possibly Infinity). *)
Lemma of_decimal_integer_pos (p : positive) :
  le (of_decimal false (Npos p) 0) zero = false.
Proof.
  unfold of_decimal. change (10 ^ 0) with 1.
  rewrite Z.mul_1_r. cbn [cond_Zopp binary_normalize]. unfold binary_round.
  unfold shl_align.
  assert (Hf : fexp prec emax (Z.pos (digits2_pos p) + 0)
               = Z.pos (digits2_pos p) - 53)
    by (unfold fexp, emin, prec, emax; lia).
  rewrite Hf.
  destruct (Z.pos (digits2_pos p) - 53 - 0) as [|n|n] eqn:En.
  - apply binary_round_aux_pos. split; [lia|]. cbn [Zdigits2]. lia.
  - apply binary_round_aux_pos. split; [lia|]. cbn [Zdigits2]. lia.
  - apply binary_round_aux_pos. split; [lia|]. cbn [Zdigits2]. lia.
Qed.

Lemma takeWhile_all {A} (f : A -> bool) (l : list A) :
  forallb f l = true -> takeWhile f l = l /\ dropWhile f l = [].
Proof.
  induction l as [|x t IH]; cbn; [auto|].
  intros H. apply andb_prop in H as [Hx Ht]. rewrite Hx.
  destruct (IH Ht) as [-> ->]. auto.
Qed.

Lemma radix_value_pos (ds : jsstring) :
  forallb is_digit ds = true ->
  existsb (fun c => negb (c =? 48)%N) ds = true ->
  (0 < radix_value 10 ds)%N.
Proof.
  unfold radix_value.
  assert (G : forall l acc,
            forallb is_digit l = true ->
            (0 < acc)%N \/ existsb (fun c => negb (c =? 48)%N) l = true ->
            (0 < fold_left
                   (fun acc c =>
                      acc * 10 + match digit_value c with
                                 | Some d => d
                                 | None => 0
                                 end) l acc)%N).
  { induction l as [|c l IH]; intros acc Hd Hex; cbn in *.
    - destruct Hex as [H|H]; [exact H|discriminate H].
    - apply andb_prop in Hd as [Hc Hl]. apply IH; [exact Hl|].
      destruct Hex as [H|H]; [left; lia|].
      apply orb_prop in H as [H|H]; [|right; exact H].
      left. unfold is_digit in Hc. unfold digit_value. rewrite Hc.
      apply andb_prop in Hc as [H1 H2]. apply N.leb_le in H1, H2.
      apply negb_true_iff, N.eqb_neq in H. lia. }
  intros Hd Hex. apply G; [exact Hd|right; exact Hex].
Qed.

Lemma digits_head (ds : jsstring) :
  forallb is_digit ds = true ->
  existsb (fun c => negb (c =? 48)%N) ds = true ->
  exists d rest, ds = d :: rest /\ is_digit d = true.
Proof.
  destruct ds as [|d rest]; cbn; [discriminate 2|].
  intros H _. apply andb_prop in H as [Hd _]. exists d, rest. auto.
Qed.

Lemma strip_sign_digit (d : N) (rest : jsstring) :
  is_digit d = true ->
  dropWhile is_whitespace (d :: rest) = d :: rest
  /\ strip_sign (d :: rest) = (false, d :: rest).
Proof.
  unfold is_digit. intros H. apply andb_prop in H as [H1 H2].
  apply N.leb_le in H1, H2.
  destruct d as [|q]; [lia|].
  do 7 (try (destruct q as [q|q|]; try (cbn in H1, H2; lia);
             try (split; reflexivity))).
Qed.

Lemma parseFloat_digits (ds : jsstring) :
  forallb is_digit ds = true ->
  existsb (fun c => negb (c =? 48)%N) ds = true ->
  le (parseFloat ds) zero = false.
Proof.
  intros Hd Hex.
  pose proof (radix_value_pos ds Hd Hex) as Hpos.
  destruct (digits_head ds Hd Hex) as (d & rest & -> & Hd1).
  destruct (strip_sign_digit d rest Hd1) as [Hw Hs].
  unfold parseFloat, trimStart. rewrite Hw, Hs.
  assert (HI : startsWith (d :: rest) (js "Infinity") = false).
  { change (js "Infinity") with (73%N :: js "nfinity"). cbn [startsWith].
    unfold is_digit in Hd1. apply andb_prop in Hd1 as [H1 H2].
    apply N.leb_le in H1, H2.
    destruct (N.eqb_spec 73 d); [lia|reflexivity]. }
  rewrite HI.
  destruct (takeWhile_all is_digit (d :: rest) Hd) as [-> ->].
  cbn [app List.length Z.of_nat exponent_part]. rewrite app_nil_r.
  change (0 - 0) with 0.
  destruct (radix_value 10 (d :: rest)) as [|p]; [lia|].
  apply of_decimal_integer_pos.
Qed.

Lemma parseInt_digits (ds : jsstring) :
  forallb is_digit ds = true ->
  existsb (fun c => negb (c =? 48)%N) ds = true ->
  le (parseInt ds) zero = false.
Proof.
  intros Hd Hex.
  pose proof (radix_value_pos ds Hd Hex) as Hpos.
  destruct (digits_head ds Hd Hex) as (d & rest & -> & Hd1).
  destruct (strip_sign_digit d rest Hd1) as [Hw Hs].
  unfold parseInt, trimStart. rewrite Hw, Hs.
  assert (Hr : match d :: rest with
               | 48%N :: x :: r =>
                   if ((x =? 120) || (x =? 88))%N
                   then (16%N, r) else (10%N, d :: rest)
               | _ => (10%N, d :: rest)
               end = (10%N, d :: rest)).
  { destruct (N.eq_dec d 48) as [->|Hne]; [|apply parseInt_radix_10; exact Hne].
    destruct rest as [|x r]; [reflexivity|].
    cbn in Hd. apply andb_prop in Hd as [Hx _].
    unfold is_digit in Hx. apply andb_prop in Hx as [H1 H2].
    apply N.leb_le in H1, H2.
    destruct (N.eqb_spec x 120); [lia|]. destruct (N.eqb_spec x 88); [lia|].
    reflexivity. }
  cbv beta iota.
  match goal with
  | |- context [let '(radix, v) := ?M in _] =>
      replace M with (10%N, d :: rest) by (symmetry; exact Hr)
  end.
  assert (Hall : forallb (is_radix_digit 10) (d :: rest) = true).
  { apply forallb_forall. intros c Hc.
    rewrite forallb_forall in Hd. specialize (Hd c Hc).
    unfold is_radix_digit, digit_value. unfold is_digit in Hd. rewrite Hd.
    apply andb_prop in Hd as [H1 H2].
    apply N.leb_le in H1, H2. apply N.ltb_lt. lia. }
  destruct (takeWhile_all _ _ Hall) as [-> _].
  destruct (radix_value 10 (d :: rest)) as [|p]; [lia|].
  apply of_decimal_integer_pos.
Qed.

(** X15. Plain positive integers always pass. On a form whose four text
    fields pass their rules, a target amount and a duration written with
    decimal digits only, each with at least one digit other than 0,
    validate, however many digits they have. *)
Theorem digit_strings_are_accepted (amount days : jsstring) (p : Page) :
  forallb is_digit amount = true ->
  existsb (fun c => negb (c =? 48)%N) amount = true ->
  forallb is_digit days = true ->
  existsb (fun c => negb (c =? 48)%N) days = true ->
  (forall r, (rank r <= 7)%nat -> violates r (formData p) = false) ->
  validate (set_field f_durationDays days (set_field f_targetAmount amount p))
  = Ok.
Proof.
  intros Ha Ha' Hd Hd' H.
  pose proof (H NameRequired ltac:(cbn; lia)) as H1.
  pose proof (H DescriptionRequired ltac:(cbn; lia)) as H2.
  pose proof (H DescriptionTooLong ltac:(cbn; lia)) as H3.
  pose proof (H ExternalUrlRequired ltac:(cbn; lia)) as H4.
  pose proof (H ExternalUrlTooLong ltac:(cbn; lia)) as H5.
  pose proof (H ImageHashRequired ltac:(cbn; lia)) as H6.
  pose proof (H ImageHashTooLong ltac:(cbn; lia)) as H7.
  cbn [violates] in *.
  validate_by_cases. rewrite H1, H2, H3, H4, H5, H6, H7.
  unfold not_positive.
  rewrite (parseFloat_digits amount Ha Ha'), (parseInt_digits days Hd Hd').
  destruct (digits_head amount Ha Ha') as (a & ra & -> & _).
  destruct (digits_head days Hd Hd') as (b & rb & -> & _).
  reflexivity.
Qed.

Lemma digit_strings_are_accepted_witness :
  validate (set_field f_durationDays (js "007")
              (set_field f_targetAmount (js "250000") samplePage)) = Ok.
Proof.
  apply digit_strings_are_accepted; try reflexivity.
  intros r _. destruct r; reflexivity.
Defined.

(** ** Whole attempts *)

(** X16. Starting from an Idle page with a wallet connected, a valid form
    and nothing in flight: a submit that the gateway rejects, followed by
    "Try Again", brings the page back to where it was (same form, same key,
    Idle, no message), with one more request on record; a submit that the
    gateway fulfils leaves the page in Success with the returned hash and
    pool id, the form kept, and nothing in flight. *)
Theorem attempts_round_trip
    (dateNow : Z) (caught : Caught) (result : CreatePoolResult) (w : World) :
  isCheckingWallet (page w) = false ->
  connected (publicKey (page w)) = true ->
  submissionState (page w) = idle ->
  validate (page w) = Ok ->
  inFlight w = 0%nat ->
  run [FormSubmitted dateNow; CreatePoolSettled (Rejected caught);
       TryAgainClicked] w
  = mkWorld (with_error [] (page w))
            (calls w ++ [request_of dateNow (formData (page w))]) 0
  /\ run [FormSubmitted dateNow; CreatePoolSettled (Fulfilled result)] w
     = mkWorld (mkPage (publicKey (page w)) false (formData (page w)) success []
                       (res_txHash result) (res_poolId result))
               (calls w ++ [request_of dateNow (formData (page w))]) 0.
Proof.
  intros Hck Hc Hs Hv Hfl.
  rewrite validate_first_violation in Hv.
  destruct (first_violation (formData (page w))) as [r|] eqn:E;
    [discriminate Hv|].
  assert (Hsub : dispatch (FormSubmitted dateNow) w
                 = mkWorld (submitting_page (page w))
                           (calls w ++ [request_of dateNow (formData (page w))])
                           1).
  { assert (G : formRendered (page w) && negb (submitDisabled (page w)) = true)
      by (unfold formRendered, submitDisabled; rewrite Hck, Hc, Hs; reflexivity).
    destruct (delivered_submit_step dateNow w G) as (_ & _ & Hm).
    rewrite E, Hfl in Hm. exact Hm. }
  unfold run. cbn [fold_left]. rewrite Hsub. split.
  - unfold dispatch, settle, tryAgainRendered, on_page, with_error.
    destruct caught as [|errorObj|]; cbn; rewrite Hck; cbn; rewrite Hs;
      reflexivity.
  - unfold dispatch, settle. cbn. rewrite Hck. reflexivity.
Qed.

Lemma attempts_round_trip_witness :
  run [FormSubmitted 1700000000123;
       CreatePoolSettled
         (Rejected (CaughtError (mkRawError (Some (js "User rejected")))));
       TryAgainClicked] (mkWorld samplePage [] 0)
  = mkWorld (with_error [] samplePage)
            [request_of 1700000000123 sampleForm] 0.
Proof.
  assert (Hv : validate samplePage = Ok) by (vm_compute; reflexivity).
  destruct (attempts_round_trip 1700000000123
              (CaughtError (mkRawError (Some (js "User rejected"))))
              (mkResult (js "tx1") (Some 5))
              (mkWorld samplePage [] 0) eq_refl eq_refl eq_refl Hv eq_refl)
    as [H _].
  exact H.
Defined.
